(** * Live prediction and reconciliation pipeline of the sports picker

    A shallow embedding of [src/predictor.py], [src/scorer.py] and the parts of
    [src/tools/polymarket_client.py] and [src/tools/supabase_client.py] they
    call, followed by the properties of the pipeline.

    Conventions of the embedding:
    - a Python [float] is an IEEE binary64 value: Rocq's primitive [float];
      a decimal literal such as [0.95] denotes the nearest binary64 value, as
      in Python;
    - a Python [str] is a [string] of ASCII characters ([lower], [upper] and
      [capitalize] act on the letters A-Z, a-z);
    - [Optional[T]] is [option T];
    - a Python exception is the [Raise] case of [Result];
    - the wall clock ([datetime.now]) is an argument [now] of the operations
      that read it;
    - logging is not modelled. *)

From Stdlib Require Import String Ascii List ZArith Bool Lia.
From Stdlib Require Import DecimalString DecimalNat FinFun.
From Stdlib Require Import Sorted Permutation.
From Stdlib Require Import Floats.
Import ListNotations.

Set Warnings "-inexact-float".

Local Open Scope string_scope.
Local Open Scope list_scope.

(* ================================================================== *)
(** ** Python values, strings and exceptions *)
(* ================================================================== *)

Module Py.

(** The exception classes the pipeline distinguishes.  All of them are
    subclasses of [Exception]; only [FileNotFoundError] is caught by name
    (in [ModelLoader.load_all]). *)
Inductive Exc : Type :=
| AttributeError
| FileNotFoundError
| KeyError
| TypeError
| ValueError
| OtherError (what : string).

Definition is_FileNotFoundError (e : Exc) : bool :=
  match e with FileNotFoundError => true | _ => false end.

Inductive Result (A : Type) : Type :=
| Ok (a : A)
| Raise (e : Exc).
Arguments Ok {A} a.
Arguments Raise {A} e.

Definition bind {A B} (r : Result A) (k : A -> Result B) : Result B :=
  match r with
  | Ok a => k a
  | Raise e => Raise e
  end.

Definition is_ok {A} (r : Result A) : bool :=
  match r with Ok _ => true | Raise _ => false end.

(** [str.lower()], [str.upper()] on one ASCII character. *)
Definition lower_ascii (c : ascii) : ascii :=
  let n := nat_of_ascii c in
  if andb (65 <=? n)%nat (n <=? 90)%nat then ascii_of_nat (n + 32) else c.

Definition upper_ascii (c : ascii) : ascii :=
  let n := nat_of_ascii c in
  if andb (97 <=? n)%nat (n <=? 122)%nat then ascii_of_nat (n - 32) else c.

Fixpoint lower (s : string) : string :=
  match s with
  | EmptyString => EmptyString
  | String c r => String (lower_ascii c) (lower r)
  end.

(** [str.capitalize()]: first character upper-cased, the rest lower-cased. *)
Definition capitalize (s : string) : string :=
  match s with
  | EmptyString => EmptyString
  | String c r => String (upper_ascii c) (lower r)
  end.

(** [kw in text] for strings: [kw] occurs as a contiguous substring. *)
Fixpoint contains (kw text : string) : bool :=
  if String.prefix kw text then true
  else match text with
       | EmptyString => false
       | String _ r => contains kw r
       end.

(** [str.startswith]. *)
Definition startswith (s p : string) : bool := String.prefix p s.

(** [s[:n]]. *)
Definition take (n : nat) (s : string) : string := String.substring 0 n s.

(** Truthiness of an [Optional[str]]: [None] and [""] are falsy. *)
Definition truthy_str (o : option string) : bool :=
  match o with
  | None => false
  | Some s => negb (String.eqb s "")
  end.

(** Truthiness of an [Optional[bool]]. *)
Definition truthy_bool (o : option bool) : bool :=
  match o with
  | Some true => true
  | _ => false
  end.

(** [a > b] on floats. *)
Definition fgt (a b : float) : bool := PrimFloat.ltb b a.

(** [float(n)] for an [int] n with [|n| < 2^63]. *)
Definition float_of_Z (z : Z) : float :=
  if (z <? 0)%Z
  then PrimFloat.opp (PrimFloat.of_uint63 (Uint63.of_Z (Z.opp z)))
  else PrimFloat.of_uint63 (Uint63.of_Z z).

Definition float_of_nat (n : nat) : float := float_of_Z (Z.of_nat n).

(** [str(n)] for a natural number: its decimal digits. *)
Definition str_of_nat (n : nat) : string :=
  NilEmpty.string_of_uint (Nat.to_uint n).

End Py.

Import Py.

Notation "x <- c1 ;; c2" := (Py.bind c1 (fun x => c2))
  (at level 61, c1 at next level, right associativity).

(* ================================================================== *)
(** ** Markets and tokens ([src/tools/polymarket_client.py]) *)
(* ================================================================== *)

(** [class Token(BaseModel)]. *)
Record Token : Type := mkToken {
  token_id : string;
  outcome : string;
  price : option float
}.

(** A raw token as the market API delivers it: a mapping with string keys.
  [raw_outcome = None] stands for a mapping without the key ["outcome"];
  [raw_price = None] for a missing or null ["price"].  Values are taken at the
  types of the corresponding [Token] fields. *)
Record RawToken : Type := mkRawToken {
  raw_outcome : option string;
  raw_price : option float
}.

(** What an element of [market.tokens] can be at run time.  The class [Market]
  declares [tokens: list[Token]], so a validated [Market] only holds
  [TModel] elements; the scorer however reads its tokens with the mapping
  method [.get], which only a [TMapping] element has. *)
Inductive TokenObj : Type :=
| TModel (t : Token)
| TMapping (d : RawToken).

(** [class Market(BaseModel)], with the fields the pipeline reads. *)
Record Market : Type := mkMarket {
  condition_id : string;
  question : string;
  tokens : list TokenObj;
  closed : bool;
  accepting_orders : bool
}.

Definition is_model (t : TokenObj) : bool :=
  match t with TModel _ => true | TMapping _ => false end.

Definition is_mapping (t : TokenObj) : bool := negb (is_model t).

(** A market as pydantic validation leaves it: every token is a [Token]. *)
Definition validated (m : Market) : bool := forallb is_model (tokens m).

(** [token.get("price")]: defined on mappings; a pydantic model has no
  attribute [get]. *)
Definition token_get_price (t : TokenObj) : Result (option float) :=
  match t with
  | TMapping d => Ok (raw_price d)
  | TModel _ => Raise AttributeError
  end.

(** [token.get("outcome", "")]. *)
Definition token_get_outcome (t : TokenObj) : Result string :=
  match t with
  | TMapping d => Ok (match raw_outcome d with Some s => s | None => "" end)
  | TModel _ => Raise AttributeError
  end.

(* ================================================================== *)
(** ** Persistence ([src/tools/supabase_client.py]) *)
(* ================================================================== *)

Module Supabase.

(** [class Prediction(BaseModel)]. *)
Record Prediction : Type := mkPrediction {
  id : option string;
  market_id : string;
  sport : string;
  event_name : string;
  predicted_outcome : string;
  historical_confidence : float;
  sentiment_confidence : float;
  hybrid_confidence : float;
  actual_outcome : option string;
  is_correct : option bool;
  created_at : option string;
  resolved_at : option string
}.

(** [class ModelMetrics(BaseModel)]; its [id] field is [metrics_id] here. *)
Record ModelMetrics : Type := mkModelMetrics {
  metrics_id : option string;
  model_type : string;
  accuracy_7d : float;
  accuracy_30d : float;
  total_predictions : nat;
  correct_predictions : nat;
  updated_at : option string
}.

(** The state a [SupabaseClient] works on.
    - [use_local] is the attribute [_use_local];
    - [remote_ok] tells whether requests to the remote service succeed (a
      failing request raises inside the client's [try] blocks);
    - [table_predictions] and [table_model_metrics] are the remote tables, the
      former in the order in which a select returns its rows;
    - [local_predictions] is the file [predictions.json] of the local
      fallback store, [None] when the file does not exist. *)
Record Client : Type := mkClient {
  use_local : bool;
  remote_ok : bool;
  table_predictions : list Prediction;
  table_model_metrics : list ModelMetrics;
  local_predictions : option (list Prediction)
}.

Definition is_connected (c : Client) : bool := negb (use_local c).

Definition set_table_predictions (c : Client) (t : list Prediction) : Client :=
  mkClient (use_local c) (remote_ok c) t (table_model_metrics c)
           (local_predictions c).

Definition set_table_model_metrics (c : Client) (t : list ModelMetrics) : Client :=
  mkClient (use_local c) (remote_ok c) (table_predictions c) t
           (local_predictions c).

Definition set_local_predictions (c : Client) (l : list Prediction) : Client :=
  mkClient (use_local c) (remote_ok c) (table_predictions c)
           (table_model_metrics c) (Some l).

(** [f"local_{n}"]. *)
Definition local_id (n : nat) : string := "local_" ++ str_of_nat n.

(** [_save_prediction_local]: the prediction gets the id
    [local_<len + 1>] and is appended to the file, which is created when it
    does not exist.  The saved prediction is returned. *)
Definition _save_prediction_local (c : Client) (prediction : Prediction)
  : Client * Prediction :=
  let predictions :=
    match local_predictions c with
    | Some l => l
    | None => []
    end in
  let saved :=
    mkPrediction (Some (local_id (length predictions + 1)))
      (market_id prediction) (sport prediction) (event_name prediction)
      (predicted_outcome prediction) (historical_confidence prediction)
      (sentiment_confidence prediction) (hybrid_confidence prediction)
      (actual_outcome prediction) (is_correct prediction)
      (created_at prediction) (resolved_at prediction) in
  (set_local_predictions c (predictions ++ [saved]), saved).

Definition option_string_eqb (a b : option string) : bool :=
  match a, b with
  | None, None => true
  | Some x, Some y => String.eqb x y
  | _, _ => false
  end.

(** The [continue] tests of [_get_predictions_local]. *)
Definition local_skips (sport_filter : option string) (only_resolved : bool)
  (p : Prediction) : bool :=
  orb (andb (truthy_str sport_filter)
            (negb (option_string_eqb (Some (sport p)) sport_filter)))
      (andb only_resolved (negb (truthy_str (actual_outcome p)))).

(** The loop of [_get_predictions_local]: a row that passes the filters is
    appended first, and the loop stops once [len(result) >= limit]. *)
Fixpoint local_scan (limit : Z) (sport_filter : option string)
  (only_resolved : bool) (rows result : list Prediction) : list Prediction :=
  match rows with
  | [] => result
  | p :: rest =>
      if local_skips sport_filter only_resolved p
      then local_scan limit sport_filter only_resolved rest result
      else
        let result' := result ++ [p] in
        if (Z.of_nat (length result') >=? limit)%Z then result'
        else local_scan limit sport_filter only_resolved rest result'
  end.

Definition _get_predictions_local (c : Client) (limit : Z)
  (sport_filter : option string) (only_resolved : bool) : list Prediction :=
  match local_predictions c with
  | None => []
  | Some rows => local_scan limit sport_filter only_resolved rows []
  end.

(** The remote select: [.eq("sport", sport)] when a sport is given,
    [.not_.is_("actual_outcome", "null")] when only resolved rows are asked
    for, and [.limit(limit)]. *)
Definition remote_keeps (sport_filter : option string) (only_resolved : bool)
  (p : Prediction) : bool :=
  andb (orb (negb (truthy_str sport_filter))
            (option_string_eqb (Some (sport p)) sport_filter))
       (orb (negb only_resolved)
            (match actual_outcome p with Some _ => true | None => false end)).

Definition remote_select (c : Client) (limit : Z)
  (sport_filter : option string) (only_resolved : bool) : list Prediction :=
  firstn (Z.to_nat limit)
         (filter (remote_keeps sport_filter only_resolved) (table_predictions c)).

Definition get_predictions (c : Client) (limit : Z)
  (sport_filter : option string) (only_resolved : bool) : list Prediction :=
  if is_connected c then
    if remote_ok c then remote_select c limit sport_filter only_resolved
    else _get_predictions_local c limit sport_filter only_resolved
  else _get_predictions_local c limit sport_filter only_resolved.

(** [p["predicted_outcome"].lower() == actual_outcome.lower()]. *)
Definition outcome_matches (p : Prediction) (actual : string) : bool :=
  String.eqb (lower (predicted_outcome p)) (lower actual).

(** The three assignments that resolve a stored row. *)
Definition resolve_row (p : Prediction) (actual now : string) : Prediction :=
  mkPrediction (id p) (market_id p) (sport p) (event_name p)
    (predicted_outcome p) (historical_confidence p) (sentiment_confidence p)
    (hybrid_confidence p) (Some actual) (Some (outcome_matches p actual))
    (created_at p) (Some now).

(** The loop of [_resolve_prediction_local]: the first row whose id equals
    [prediction_id] is resolved in place and returned. *)
Fixpoint resolve_first (prediction_id : option string) (actual now : string)
  (rows : list Prediction) : list Prediction * option Prediction :=
  match rows with
  | [] => ([], None)
  | p :: rest =>
      if option_string_eqb (id p) prediction_id
      then (resolve_row p actual now :: rest, Some (resolve_row p actual now))
      else
        let '(rest', r) := resolve_first prediction_id actual now rest in
        (p :: rest', r)
  end.

Definition _resolve_prediction_local (c : Client)
  (prediction_id : option string) (actual now : string)
  : Client * option Prediction :=
  match local_predictions c with
  | None => (c, None)
  | Some rows =>
      match resolve_first prediction_id actual now rows with
      | (rows', Some p) => (set_local_predictions c rows', Some p)
      | (_, None) => (c, None)
      end
  end.

(** The remote branch of [resolve_prediction].  The select
    [.eq("id", prediction_id).single()] yields a row only when exactly one row
    has that id; a failing request or select leaves the [try] block through
    [except] and returns [None].  The returned object carries the new
    [actual_outcome] and [is_correct]; [resolved_at] is only written to the
    table. *)
Definition has_id (prediction_id : string) (p : Prediction) : bool :=
  option_string_eqb (id p) (Some prediction_id).

Definition returned_after_remote_resolve (p : Prediction) (actual : string)
  : Prediction :=
  mkPrediction (id p) (market_id p) (sport p) (event_name p)
    (predicted_outcome p) (historical_confidence p) (sentiment_confidence p)
    (hybrid_confidence p) (Some actual) (Some (outcome_matches p actual))
    (created_at p) (resolved_at p).

Definition remote_update (prediction_id : string) (fetched : Prediction)
  (actual now : string) (p : Prediction) : Prediction :=
  if has_id prediction_id p
  then mkPrediction (id p) (market_id p) (sport p) (event_name p)
         (predicted_outcome p) (historical_confidence p)
         (sentiment_confidence p) (hybrid_confidence p) (Some actual)
         (Some (outcome_matches fetched actual)) (created_at p) (Some now)
  else p.

Definition _resolve_prediction_remote (c : Client)
  (prediction_id : option string) (actual now : string)
  : Client * option Prediction :=
  if negb (remote_ok c) then (c, None)
  else
    match prediction_id with
    | None => (c, None)
    | Some pid =>
        match filter (has_id pid) (table_predictions c) with
        | [fetched] =>
            (set_table_predictions c
               (map (remote_update pid fetched actual now) (table_predictions c)),
             Some (returned_after_remote_resolve fetched actual))
        | _ => (c, None)
        end
    end.

Definition resolve_prediction (c : Client) (prediction_id : option string)
  (actual now : string) : Client * option Prediction :=
  if is_connected c
  then _resolve_prediction_remote c prediction_id actual now
  else _resolve_prediction_local c prediction_id actual now.

(** [correct / total if total > 0 else 0.0]. *)
Definition accuracy_of (correct total : nat) : float :=
  if (0 <? total)%nat
  then PrimFloat.div (float_of_nat correct) (float_of_nat total)
  else 0.0%float.

(** The upsert into [model_metrics], keyed by [model_type]: the payload
    leaves [id] out, so an existing row keeps its id. *)
Fixpoint upsert_metrics (m : ModelMetrics) (t : list ModelMetrics)
  : list ModelMetrics :=
  match t with
  | [] => [m]
  | r :: rest =>
      if String.eqb (model_type r) (model_type m)
      then mkModelMetrics (metrics_id r) (model_type m) (accuracy_7d m)
             (accuracy_30d m) (total_predictions m) (correct_predictions m)
             (updated_at m) :: rest
      else r :: upsert_metrics m rest
  end.

Definition count_correct (l : list Prediction) : nat :=
  length (filter (fun p => truthy_bool (is_correct p)) l).

Definition update_model_metrics (c : Client) (mtype now : string)
  : Client * option ModelMetrics :=
  match get_predictions c 1000 None true with
  | [] => (c, None)
  | predictions =>
      let total := length predictions in
      let correct := count_correct predictions in
      let accuracy := accuracy_of correct total in
      let metrics :=
        mkModelMetrics None mtype accuracy accuracy total correct (Some now) in
      if andb (is_connected c) (remote_ok c)
      then (set_table_model_metrics c
              (upsert_metrics metrics (table_model_metrics c)),
            Some metrics)
      else (c, Some metrics)
  end.

End Supabase.

(* ================================================================== *)
(** ** Model loading ([ModelLoader] in [src/predictor.py]) *)
(* ================================================================== *)

Module Predictor.

Import Supabase.

(** A loaded model artifact, seen through the two inference calls the
    predictor makes on it: [predict_proba(X)[0, 1]] and
    [predict(X, verbose=0)[0, 0]], each on a one-row input.  Either may
    raise. *)
Record Model : Type := mkModel {
  predict_proba : list float -> Result float;
  predict : list float -> Result float
}.

(** The content of [scaler_params.json]. *)
Record ScalerParams : Type := mkScalerParams {
  mean : list float;
  scale : list float
}.

(** [class ModelLoader], without [model_dir]. *)
Record ModelLoader : Type := mkModelLoader {
  historical_model : option Model;
  sentiment_model : option Model;
  meta_learner : option Model;
  scaler_params : option ScalerParams;
  feature_names : option (list string);
  _use_tf : bool
}.

(** [ModelLoader.__init__]. *)
Definition new_loader : ModelLoader :=
  mkModelLoader None None None None None false.

(** What each load of [load_all] finds on disk: the value it reads, or the
    exception it raises (a failing [import] included). *)
Record Artifacts : Type := mkArtifacts {
  feature_names_json : Result (list string);
  scaler_params_json : Result ScalerParams;
  historical_joblib : Result Model;
  sentiment_keras : Result Model;
  sentiment_joblib : Result Model;
  meta_learner_joblib : Result Model
}.

(** The first [try] block: both files are read in turn, and only
    [FileNotFoundError] is handled.  The result is the loader after the block
    and, when another exception leaves the block, that exception. *)
Definition load_schema (ml : ModelLoader) (a : Artifacts)
  : ModelLoader * option Exc :=
  let with_schema fn sp :=
    mkModelLoader (historical_model ml) (sentiment_model ml) (meta_learner ml)
      sp fn (_use_tf ml) in
  let defaults := with_schema (Some []) None in
  match feature_names_json a with
  | Ok fn =>
      match scaler_params_json a with
      | Ok sp => (with_schema (Some fn) (Some sp), None)
      | Raise e =>
          if is_FileNotFoundError e then (defaults, None)
          else (with_schema (Some fn) (scaler_params ml), Some e)
      end
  | Raise e =>
      if is_FileNotFoundError e then (defaults, None) else (ml, Some e)
  end.

(** The second [try] block: [except Exception] absorbs every failure. *)
Definition load_historical (ml : ModelLoader) (a : Artifacts) (success : bool)
  : ModelLoader * bool :=
  match historical_joblib a with
  | Ok m =>
      (mkModelLoader (Some m) (sentiment_model ml) (meta_learner ml)
         (scaler_params ml) (feature_names ml) (_use_tf ml), true)
  | Raise _ => (ml, success)
  end.

(** The third [try] block: the Keras artifact first, the joblib artifact
    inside the handler. *)
Definition load_sentiment (ml : ModelLoader) (a : Artifacts) (success : bool)
  : ModelLoader * bool :=
  match sentiment_keras a with
  | Ok m =>
      (mkModelLoader (historical_model ml) (Some m) (meta_learner ml)
         (scaler_params ml) (feature_names ml) true, true)
  | Raise _ =>
      match sentiment_joblib a with
      | Ok m =>
          (mkModelLoader (historical_model ml) (Some m) (meta_learner ml)
             (scaler_params ml) (feature_names ml) false, true)
      | Raise _ => (ml, success)
      end
  end.

(** The fourth [try] block; it does not touch [success]. *)
Definition load_meta (ml : ModelLoader) (a : Artifacts) : ModelLoader :=
  match meta_learner_joblib a with
  | Ok m =>
      mkModelLoader (historical_model ml) (sentiment_model ml) (Some m)
        (scaler_params ml) (feature_names ml) (_use_tf ml)
  | Raise _ => ml
  end.

(** [ModelLoader.load_all]: the loader afterwards, and the returned flag or
    the exception that left the method. *)
Definition load_all (ml : ModelLoader) (a : Artifacts)
  : ModelLoader * Result bool :=
  let success := false in
  match load_schema ml a with
  | (ml1, Some e) => (ml1, Raise e)
  | (ml1, None) =>
      let '(ml2, success) := load_historical ml1 a success in
      let '(ml3, success) := load_sentiment ml2 a success in
      let ml4 := load_meta ml3 a in
      (ml4, Ok success)
  end.

(** The property [models_loaded]. *)
Definition models_loaded (ml : ModelLoader) : bool * bool * bool :=
  (match historical_model ml with Some _ => true | None => false end,
   match sentiment_model ml with Some _ => true | None => false end,
   match meta_learner ml with Some _ => true | None => false end).

(* ================================================================== *)
(** ** Feature extraction ([FeatureExtractor] in [src/predictor.py]) *)
(* ================================================================== *)

(** The values a feature dictionary holds. *)
Inductive PyVal : Type :=
| VStr (s : string)
| VFloat (f : float)
| VBool (b : bool)
| VInt (z : Z).

(** A [dict] with string keys, as the list of its items in insertion
    order; the keys of a dictionary literal are distinct. *)
Definition Dict : Type := list (string * PyVal).

Fixpoint dict_get (k : string) (d : Dict) : option PyVal :=
  match d with
  | [] => None
  | (k', v) :: rest => if String.eqb k' k then Some v else dict_get k rest
  end.

(** [d[k]]. *)
Definition dict_item (k : string) (d : Dict) : Result PyVal :=
  match dict_get k d with
  | Some v => Ok v
  | None => Raise KeyError
  end.

Definition SPORT_KEYWORDS : list (string * list string) :=
  [ ("nba", ["nba"; "basketball"; "lakers"; "celtics"; "warriors"; "bulls"]);
    ("nfl", ["nfl"; "football"; "chiefs"; "eagles"; "cowboys"; "patriots"]);
    ("mlb", ["mlb"; "baseball"; "yankees"; "dodgers"; "red sox"; "cubs"]);
    ("nhl", ["nhl"; "hockey"; "bruins"; "rangers"; "penguins"; "maple leafs"]);
    ("mma", ["ufc"; "mma"; "fight"; "bellator"]);
    ("soccer", ["soccer"; "mls"; "premier league"; "la liga"]) ].

Definition _detect_sport (text : string) : string :=
  let text_lower := lower text in
  match find (fun entry => existsb (fun kw => contains kw text_lower) (snd entry))
             SPORT_KEYWORDS with
  | Some entry => fst entry
  | None => "other"
  end.

(** [getattr(token, 'outcome', '').lower() if hasattr(token, 'outcome') else ''];
    a mapping has no attribute [outcome]. *)
Definition attr_outcome_lower (t : TokenObj) : string :=
  match t with
  | TModel tk => lower (outcome tk)
  | TMapping _ => ""
  end.

(** [getattr(token, 'price', None) if hasattr(token, 'price') else None]. *)
Definition attr_price (t : TokenObj) : option float :=
  match t with
  | TModel tk => price tk
  | TMapping _ => None
  end.

(** The token loop of [extract_features], on the pair
    [(yes_price, no_price)]. *)
Fixpoint token_prices (toks : list TokenObj) (yes_no : float * float)
  : float * float :=
  match toks with
  | [] => yes_no
  | t :: rest =>
      let o := attr_outcome_lower t in
      match attr_price t with
      | Some p =>
          if String.eqb o "yes" then token_prices rest (p, snd yes_no)
          else if String.eqb o "no" then token_prices rest (fst yes_no, p)
          else token_prices rest yes_no
      | None => token_prices rest yes_no
      end
  end.

Definition yes_price_of (m : Market) : float :=
  fst (token_prices (tokens m) (0.5, 0.5)%float).

Definition no_price_of (m : Market) : float :=
  snd (token_prices (tokens m) (0.5, 0.5)%float).

Definition extract_features (m : Market) : Dict :=
  let sport := _detect_sport (question m) in
  let yes_price := yes_price_of m in
  let no_price := no_price_of m in
  let price_spread := PrimFloat.abs (yes_price - no_price)%float in
  let is_home_favorite := fgt yes_price no_price in
  let market_edge := (yes_price - 0.5)%float in
  [ ("market_id", VStr (condition_id m));
    ("question", VStr (question m));
    ("sport", VStr sport);
    ("home_yes_price", VFloat yes_price);
    ("away_yes_price", VFloat no_price);
    ("price_spread", VFloat price_spread);
    ("is_home_favorite", VBool is_home_favorite);
    ("market_edge", VFloat market_edge);
    ("home_wins", VInt 0);
    ("home_losses", VInt 0);
    ("away_wins", VInt 0);
    ("away_losses", VInt 0);
    ("home_win_pct", VFloat 0.5);
    ("away_win_pct", VFloat 0.5);
    ("win_pct_diff", VFloat 0.0) ].

(** [name.replace(pat, "")] for a non-empty [pat]: every occurrence of [pat],
    scanning from the left, is dropped.  [skip] counts the characters of a
    matched occurrence still to drop. *)
Fixpoint remove_all_from (pat : string) (skip : nat) (s : string) : string :=
  match s with
  | EmptyString => EmptyString
  | String c r =>
      match skip with
      | S k => remove_all_from pat k r
      | O =>
          if String.prefix pat s
          then remove_all_from pat (String.length pat - 1) r
          else String c (remove_all_from pat 0 r)
      end
  end.

Definition remove_all (pat s : string) : string := remove_all_from pat 0 s.

Section ModelInput.

(** Python's [float(s)] on a string: the parsed number, or [ValueError]. *)
Variable float_of_str : string -> Result float.

(** [float(val)]. *)
Definition to_float (v : PyVal) : Result float :=
  match v with
  | VStr s => float_of_str s
  | VFloat f => Ok f
  | VBool b => Ok (if b then 1.0 else 0.0)%float
  | VInt z => Ok (float_of_Z z)
  end.

(** One iteration of the loop of [to_model_input]. *)
Definition feature_value (features : Dict) (name : string) : Result float :=
  if startswith name "sport_" then
    let sport := remove_all "sport_" name in
    match dict_get "sport" features with
    | Some (VStr s) => Ok (if String.eqb s sport then 1.0 else 0.0)%float
    | _ => Ok 0.0%float
    end
  else
    match dict_get name features with
    | Some (VBool b) => Ok (if b then 1.0 else 0.0)%float
    | Some v => to_float v
    | None => Ok 0.0%float
    end.

Fixpoint to_model_input (features : Dict) (names : list string)
  : Result (list float) :=
  match names with
  | [] => Ok []
  | name :: rest =>
      v <- feature_value features name ;;
      vs <- to_model_input features rest ;;
      Ok (v :: vs)
  end.

End ModelInput.

(* ================================================================== *)
(** ** The ensemble and the orchestrator ([SportsPredictor]) *)
(* ================================================================== *)

Section Predict.

Variable float_of_str : string -> Result float.

(** A value used where a [float] is expected. *)
Definition as_float (v : PyVal) : Result float :=
  match v with
  | VFloat f => Ok f
  | _ => Raise TypeError
  end.

(** A value used where a [str] is expected. *)
Definition as_str (v : PyVal) : Result string :=
  match v with
  | VStr s => Ok s
  | _ => Raise TypeError
  end.

Definition is_str (v : PyVal) (s : string) : bool :=
  match v with
  | VStr s' => String.eqb s' s
  | _ => false
  end.

(** The body of a stage's [try] block, with its [except Exception] handler:
    a failure leaves the confidence at its initial [0.5]. *)
Definition or_neutral (r : Result float) : float :=
  match r with
  | Ok v => v
  | Raise _ => 0.5%float
  end.

(** [hist_conf]: the historical model runs when it is loaded and the schema
    is a non-empty list. *)
Definition historical_stage (ml : ModelLoader) (features : Dict) : float :=
  match historical_model ml, feature_names ml with
  | Some hm, Some (n :: ns) =>
      or_neutral (X <- to_model_input float_of_str features (n :: ns) ;;
                  predict_proba hm X)
  | _, _ => 0.5%float
  end.

(** [sent_conf]: [predict] for a Keras model, [predict_proba] otherwise. *)
Definition sentiment_stage (ml : ModelLoader) (features : Dict) : float :=
  match sentiment_model ml, feature_names ml with
  | Some sm, Some (n :: ns) =>
      or_neutral (X <- to_model_input float_of_str features (n :: ns) ;;
                  if _use_tf ml then predict sm X else predict_proba sm X)
  | _, _ => 0.5%float
  end.

(** The row [meta_X] given to the meta-learner. *)
Definition meta_input (hist_conf sent_conf : float) : list float :=
  [ hist_conf;
    sent_conf;
    hist_conf - sent_conf;
    (hist_conf + sent_conf) / 2;
    PrimFloat.abs (hist_conf - 0.5);
    PrimFloat.abs (sent_conf - 0.5) ]%float.

(** [hybrid_conf]: the meta-learner when one is loaded, the mean of the two
    stage confidences when its call fails, and the market's yes-price when no
    meta-learner is loaded. *)
Definition hybrid_stage (ml : ModelLoader) (features : Dict)
  (hist_conf sent_conf : float) : Result float :=
  match meta_learner ml with
  | Some mm =>
      match predict_proba mm (meta_input hist_conf sent_conf) with
      | Ok v => Ok v
      | Raise _ => Ok ((hist_conf + sent_conf) / 2)%float
      end
  | None =>
      v <- dict_item "home_yes_price" features ;;
      as_float v
  end.

(** ["Yes" if hybrid_conf > 0.5 else "No"]. *)
Definition label_of (conf : float) : string :=
  if fgt conf 0.5 then "Yes" else "No".

Definition predict_market (ml : ModelLoader) (m : Market)
  : Result (option Prediction) :=
  let features := extract_features m in
  sp <- dict_item "sport" features ;;
  if is_str sp "other" then Ok None
  else
    let hist_conf := historical_stage ml features in
    let sent_conf := sentiment_stage ml features in
    hybrid_conf <- hybrid_stage ml features hist_conf sent_conf ;;
    let predicted := label_of hybrid_conf in
    sport_name <- as_str sp ;;
    Ok (Some (mkPrediction None (condition_id m) sport_name
                (take 200 (question m)) predicted hist_conf sent_conf
                hybrid_conf None None None None)).

(** [l[:n]] for a Python [int] n. *)
Definition slice_to {A} (n : Z) (l : list A) : list A :=
  if (n <? 0)%Z then firstn (Z.to_nat (Z.of_nat (length l) + n)) l
  else firstn (Z.to_nat n) l.

(** The prediction loop of [predict_current_markets]: the call for one
    market is inside [try]; [except Exception] logs and goes on with the next
    market.  [step] is the call made for each market. *)
Fixpoint predict_each (step : Market -> Result (option Prediction))
  (markets : list Market) : list Prediction :=
  match markets with
  | [] => []
  | m :: rest =>
      match step m with
      | Ok (Some pred) => pred :: predict_each step rest
      | Ok None => predict_each step rest
      | Raise _ => predict_each step rest
      end
  end.

(** [predict_current_markets] on an initialized predictor; [markets] is the
    list [get_sports_markets] has returned. *)
Definition predict_current_markets (ml : ModelLoader)
  (sport_filter : option string) (max_markets : Z) (markets : list Market)
  : list Prediction :=
  let active_markets := filter accepting_orders markets in
  let active_markets :=
    match sport_filter with
    | Some s =>
        if truthy_str sport_filter
        then filter (fun m => String.eqb (_detect_sport (question m)) (lower s))
                    active_markets
        else active_markets
    | None => active_markets
    end in
  predict_each (predict_market ml) (slice_to max_markets active_markets).

End Predict.

(** [SportsPredictor.initialize]: it loads the models and returns [True]
    whatever [load_all] returned. *)
Definition initialize (ml : ModelLoader) (a : Artifacts)
  : ModelLoader * Result bool :=
  match load_all ml a with
  | (ml', Ok _) => (ml', Ok true)
  | (ml', Raise e) => (ml', Raise e)
  end.

End Predictor.
(* ================================================================== *)
(** ** Scoring and reconciliation ([PredictionScorer] in [src/scorer.py]) *)
(* ================================================================== *)

Module Scorer.

Import Supabase.

(** One [for token in tokens] loop of [get_market_outcome]: returns from the
    function with the capitalized label of the first token whose price
    passes [test]; [Ok None] when the loop falls through. *)
Fixpoint scan_tokens (test : float -> bool) (toks : list TokenObj)
  : Result (option string) :=
  match toks with
  | [] => Ok None
  | t :: rest =>
      p <- token_get_price t ;;
      match p with
      | Some x =>
          if test x
          then (o <- token_get_outcome t ;; Ok (Some (capitalize o)))
          else scan_tokens test rest
      | None => scan_tokens test rest
      end
  end.

Definition price_is_one (x : float) : bool := PrimFloat.eqb x 1.0.
Definition price_near_one (x : float) : bool := fgt x 0.95.

Definition get_market_outcome (m : Market) : Result (option string) :=
  if negb (closed m) then Ok None
  else
    r <- scan_tokens price_is_one (tokens m) ;;
    match r with
    | Some o => Ok (Some o)
    | None => scan_tokens price_near_one (tokens m)
    end.

(** [score_prediction]: the prediction is resolved in the store; the
    resolved object is returned when the store yields one, the argument
    otherwise.  (The comparison the method makes itself is only logged.) *)
Definition score_prediction (c : Client) (prediction : Prediction)
  (actual_outcome now : string) : Client * Prediction :=
  match resolve_prediction c (id prediction) actual_outcome now with
  | (c', Some resolved) => (c', resolved)
  | (c', None) => (c', prediction)
  end.

(** The dictionary [score_pending_predictions] returns. *)
Record Results : Type := mkResults {
  total : nat;
  scored : nat;
  correct : nat;
  wrong : nat;
  still_pending : nat
}.

Definition add_still_pending (r : Results) : Results :=
  mkResults (total r) (scored r) (correct r) (wrong r) (S (still_pending r)).

Definition add_scored (is_correct : bool) (r : Results) : Results :=
  if is_correct
  then mkResults (total r) (S (scored r)) (S (correct r)) (wrong r) (still_pending r)
  else mkResults (total r) (S (scored r)) (correct r) (S (wrong r)) (still_pending r).

(** [market_lookup.get(k)] for [market_lookup = {m.condition_id: m for m in
    all_markets}]: of several markets with one id the last one stays. *)
Definition market_lookup (all_markets : list Market) (k : string)
  : option Market :=
  find (fun m => String.eqb (condition_id m) k) (rev all_markets).

(** [p.actual_outcome is None]. *)
Definition is_pending (p : Prediction) : bool :=
  match actual_outcome p with
  | None => true
  | Some _ => false
  end.

(** The loop [for prediction in pending] of [score_pending_predictions].
    Nothing in it handles an exception: one raised by [get_market_outcome]
    leaves the loop and the method, with the store as it is then. *)
Fixpoint score_each (all_markets : list Market) (now : string)
  (pending : list Prediction) (c : Client) (results : Results)
  : Client * Result Results :=
  match pending with
  | [] => (c, Ok results)
  | prediction :: rest =>
      match market_lookup all_markets (market_id prediction) with
      | None => score_each all_markets now rest c (add_still_pending results)
      | Some market =>
          match get_market_outcome market with
          | Raise e => (c, Raise e)
          | Ok None =>
              score_each all_markets now rest c (add_still_pending results)
          | Ok (Some outcome) =>
              let '(c', scored) := score_prediction c prediction outcome now in
              score_each all_markets now rest c'
                (add_scored (truthy_bool (is_correct scored)) results)
          end
      end
  end.

(** The predictions [score_pending_predictions] works on. *)
Definition pending_of (c : Client) (sport_filter : option string) (limit : Z)
  : list Prediction :=
  filter is_pending (get_predictions c limit sport_filter false).

(** [score_pending_predictions]; [all_markets] is the list
    [get_sports_markets] returns. *)
Definition score_pending_predictions (c : Client)
  (sport_filter : option string) (limit : Z) (all_markets : list Market)
  (now : string) : Client * Result Results :=
  match pending_of c sport_filter limit with
  | [] => (c, Ok (mkResults 0 0 0 0 0))
  | pending =>
      score_each all_markets now pending c
        (mkResults (length pending) 0 0 0 0)
  end.

(** The three stages, in the order [update_metrics] visits them. *)
Definition stages : list string := ["historical"; "sentiment"; "hybrid"].

(** [get_conf] for a stage. *)
Definition get_conf (mtype : string) (p : Prediction) : float :=
  if String.eqb mtype "historical" then historical_confidence p
  else if String.eqb mtype "sentiment" then sentiment_confidence p
  else hybrid_confidence p.

(** ["Yes" if conf > 0.5 else "No"]. *)
Definition model_prediction (conf : float) : string :=
  if fgt conf 0.5 then "Yes" else "No".

(** Whether a stage would have been right on a prediction with a truthy
    [actual_outcome]. *)
Definition stage_correct (mtype : string) (p : Prediction) : bool :=
  match actual_outcome p with
  | Some actual =>
      String.eqb (lower (model_prediction (get_conf mtype p))) (lower actual)
  | None => false
  end.

(** The loop [for pred in resolved], on the pair [(total, correct)]. *)
Fixpoint tally (mtype : string) (resolved : list Prediction)
  (acc : nat * nat) : nat * nat :=
  match resolved with
  | [] => acc
  | pred :: rest =>
      if truthy_str (actual_outcome pred)
      then tally mtype rest
             (S (fst acc),
              if stage_correct mtype pred then S (snd acc) else snd acc)
      else tally mtype rest acc
  end.

(** The [ModelMetrics] object [update_metrics] builds for a stage. *)
Definition stage_metrics (mtype : string) (resolved : list Prediction)
  : ModelMetrics :=
  let '(total, correct) := tally mtype resolved (0, 0) in
  let accuracy := accuracy_of correct total in
  mkModelMetrics None mtype accuracy accuracy total correct None.

(** The loop [for model_type in ...] of [update_metrics]: the stage's metrics
    go into the returned dictionary, and the store is asked to update its own
    row for the stage. *)
Fixpoint update_each (mtypes : list string) (resolved : list Prediction)
  (now : string) (c : Client) (metrics : list (string * ModelMetrics))
  : Client * list (string * ModelMetrics) :=
  match mtypes with
  | [] => (c, metrics)
  | mtype :: rest =>
      let m := stage_metrics mtype resolved in
      let c' := fst (update_model_metrics c mtype now) in
      update_each rest resolved now c' (metrics ++ [(mtype, m)])
  end.

Definition update_metrics (c : Client) (now : string)
  : Client * list (string * ModelMetrics) :=
  match get_predictions c 1000 None true with
  | [] => (c, [])
  | resolved => update_each stages resolved now c []
  end.

End Scorer.

Import Supabase Predictor Scorer.

(* ================================================================== *)
(** ** The rules in the words of the specification *)
(* ================================================================== *)

Module Spec.

(** The label and the price of a token, whichever way it is stored. *)
Definition token_label (t : TokenObj) : string :=
  match t with
  | TModel tk => outcome tk
  | TMapping d => match raw_outcome d with Some s => s | None => "" end
  end.

Definition token_price (t : TokenObj) : option float :=
  match t with
  | TModel tk => price tk
  | TMapping d => raw_price d
  end.

Definition price_passes (test : float -> bool) (t : TokenObj) : bool :=
  match token_price t with
  | Some x => test x
  | None => false
  end.

(** The resolved outcome of a token list as the specification words it: the
    label of the token whose price equals 1.0 exactly; failing that, of the
    first token whose price exceeds 0.95; none if no token qualifies. *)
Definition resolved_outcome (toks : list TokenObj) : option string :=
  match find (price_passes price_is_one) toks with
  | Some t => Some (token_label t)
  | None =>
      match find (price_passes price_near_one) toks with
      | Some t => Some (token_label t)
      | None => None
      end
  end.

(** The weighted average of the specification's ensemble,
    [w * p_hist + (1 - w) * p_sent]. *)
Definition weighted_average (w p_hist p_sent : float) : float :=
  (w * p_hist + (1 - w) * p_sent)%float.

(** The prices of the priced Yes-tokens of a market, in token order. *)
Definition yes_token_prices (toks : list TokenObj) : list float :=
  flat_map (fun t =>
              match t with
              | TModel tk =>
                  if String.eqb (lower (outcome tk)) "yes"
                  then match price tk with Some p => [p] | None => [] end
                  else []
              | TMapping _ => []
              end) toks.

End Spec.

(* ================================================================== *)
(** ** Notions used in the statements *)
(* ================================================================== *)

Module Aux.

(** The first [try] block of [load_all] is left normally: both schema files
    are read, or the one that fails is missing. *)
Definition schema_absent_or_read (a : Artifacts) : bool :=
  match feature_names_json a with
  | Ok _ =>
      match scaler_params_json a with
      | Ok _ => true
      | Raise e => is_FileNotFoundError e
      end
  | Raise e => is_FileNotFoundError e
  end.

(** The rows [get_predictions] reads: the remote table when the client is
    connected and the service answers, the local file otherwise. *)
Definition rows (c : Client) : list Prediction :=
  if andb (is_connected c) (remote_ok c) then table_predictions c
  else match local_predictions c with
       | Some l => l
       | None => []
       end.

(** The writes the pipeline makes to the local file. *)
Inductive LocalWrite : Type :=
| Save (prediction : Prediction)
| Resolve (prediction_id : option string) (actual now : string).

Definition local_write (c : Client) (w : LocalWrite) : Client :=
  match w with
  | Save prediction => fst (_save_prediction_local c prediction)
  | Resolve pid actual now => fst (_resolve_prediction_local c pid actual now)
  end.

(** The rows of the local file, none when there is no file. *)
Definition local_rows (c : Client) : list Prediction :=
  match local_predictions c with
  | Some l => l
  | None => []
  end.

(** The ids [local_1], ..., [local_n] in this order. *)
Definition local_ids (n : nat) : list (option string) :=
  map (fun k => Some (local_id k)) (seq 1 n).

(** The figures of a metrics row: stage, total, correct, accuracy. *)
Definition figures (m : ModelMetrics) : string * nat * nat * float :=
  (model_type m, total_predictions m, correct_predictions m, accuracy_30d m).

(** What a stage reads of a prediction when [update_metrics] judges it. *)
Definition stage_view (mtype : string) (p : Prediction)
  : float * option string :=
  (get_conf mtype p, actual_outcome p).

(** What one market contributes to the output of the prediction loop. *)
Definition contribution (step : Market -> Result (option Prediction))
  (m : Market) : list Prediction :=
  match step m with
  | Ok (Some pred) => [pred]
  | _ => []
  end.

End Aux.

(* ================================================================== *)
(** ** Concrete markets, models and stores used below *)
(* ================================================================== *)

Module Ex.

Definition raw (o : string) (p : float) : TokenObj :=
  TMapping (mkRawToken (Some o) (Some p)).

Definition tok (o : string) (p : float) : TokenObj :=
  TModel (mkToken "t" o (Some p)).

(** The three token lists of the specification's resolution examples. *)
Definition yes_won : list TokenObj := [raw "Yes" 1.0; raw "No" 0.0].
Definition yes_near : list TokenObj := [raw "Yes" 0.97; raw "No" 0.03].
Definition undecided : list TokenObj := [raw "Yes" 0.6; raw "No" 0.4].

Definition closed_market (toks : list TokenObj) : Market :=
  mkMarket "0xc1" "Will the Lakers win?" toks true false.

Definition open_market (toks : list TokenObj) : Market :=
  mkMarket "0xc1" "Will the Lakers win?" toks false true.

(** A token the client has built from a price of 0, which it stores as no
    price. *)
Definition tok_unpriced (o : string) : TokenObj :=
  TModel (mkToken "t" o None).

(** A closed market as the client builds it: its tokens are [Token] objects. *)
Definition closed_validated : Market :=
  closed_market [tok "Yes" 1.0; tok_unpriced "No"].

(** An open market as the client builds it, with Yes at 1.0. *)
Definition open_validated : Market :=
  open_market [tok "Yes" 1.0; tok_unpriced "No"].

(** A closed market whose winning token is labelled in upper case. *)
Definition closed_upper : Market :=
  closed_market [raw "YES" 1.0; raw "NO" 0.0].

(** An open market the client has validated, priced 0.3 for Yes. *)
Definition lakers : Market :=
  mkMarket "0xa1" "Will the Lakers win?" [tok "Yes" 0.3; tok "No" 0.7]
           false true.

(** An open market priced 0.5 for Yes. *)
Definition even_odds : Market :=
  mkMarket "0xa2" "Will the Celtics win?" [tok "Yes" 0.5; tok "No" 0.5]
           false true.

(** A [float] parser for the examples: their schema names no string-valued
    feature, so it is never called. *)
Definition no_parse (s : string) : Result float := Raise ValueError.

(** A model that answers [v] on every input. *)
Definition constant_model (v : float) : Model :=
  mkModel (fun _ => Ok v) (fun _ => Ok v).

(** A model whose inference calls fail. *)
Definition failing_model : Model :=
  mkModel (fun _ => Raise ValueError) (fun _ => Raise ValueError).

(** A loader holding a historical model alone, with a one-column schema. *)
Definition historical_only : ModelLoader :=
  mkModelLoader (Some (constant_model 0.9)) None None None
                (Some ["home_yes_price"]) false.

(** Artifacts on disk where every model file loads but
    [feature_names.json] does not parse. *)
Definition corrupt_schema : Artifacts :=
  mkArtifacts (Raise (OtherError "json.JSONDecodeError"))
              (Ok (mkScalerParams [] []))
              (Ok (constant_model 0.9)) (Ok (constant_model 0.6))
              (Ok (constant_model 0.6)) (Ok (constant_model 0.7)).

(** Artifacts where nothing but the secondary sentiment artifact loads. *)
Definition only_sklearn_sentiment : Artifacts :=
  mkArtifacts (Raise FileNotFoundError) (Raise FileNotFoundError)
              (Raise FileNotFoundError) (Raise (OtherError "ImportError"))
              (Ok (constant_model 0.6)) (Raise FileNotFoundError).

(** A stored prediction. *)
Definition stored (pid mid predicted : string) (hist sent hyb : float)
  (actual : option string) (ok : option bool) : Prediction :=
  mkPrediction (Some pid) mid "nba" "Will the Lakers win?" predicted
               hist sent hyb actual ok (Some "2026-01-01T00:00:00+00:00")
               (match actual with
                | Some _ => Some "2026-01-02T00:00:00+00:00"
                | None => None
                end).

Definition local_client (rows : list Prediction) : Client :=
  mkClient true false [] [] (Some rows).

Definition connected_client (rows : list Prediction) : Client :=
  mkClient false true rows [] None.

Definition now : string := "2026-01-03T00:00:00+00:00".

(** Two pending predictions: the market of the first has closed, the market
    of the second is still open. *)
Definition pending_a : Prediction :=
  stored "local_1" "0xc1" "Yes" 0.5 0.5 0.8 None None.

Definition pending_b : Prediction :=
  stored "local_2" "0xa1" "No" 0.5 0.5 0.3 None None.

(** A resolved prediction whose hybrid stage was wrong and whose historical
    stage was right. *)
Definition resolved_yes : Prediction :=
  stored "7f3a" "0xc1" "No" 0.9 0.5 0.2 (Some "Yes") (Some false).

Definition pending_c : Prediction :=
  stored "local_3" "0xc1" "No" 0.5 0.5 0.3 None None.

(** The market 0xc1 has closed with Yes at 1.0, its tokens read as
    mappings; the market 0xa1 is open. *)
Definition markets_resolved : list Market := [closed_market yes_won; lakers].

(** The same two markets as the client delivers them. *)
Definition markets_validated : list Market := [closed_validated; lakers].

(** A local store with a resolved row followed by a pending one, both on
    the market 0xc1. *)
Definition resolved_local : Prediction :=
  stored "local_1" "0xc1" "No" 0.5 0.5 0.2 (Some "Yes") (Some false).

Definition pending_local : Prediction :=
  stored "local_2" "0xc1" "Yes" 0.5 0.5 0.8 None None.

Definition mixed_store : Client :=
  local_client [resolved_local; pending_local].

(** Some weights between 0 and 1. *)
Definition sample_weights : list float := [0; 0.25; 0.5; 0.75; 1]%float.

End Ex.

(* ================================================================== *)
(** ** More of the market client ([src/tools/polymarket_client.py]) *)
(* ================================================================== *)

Module Polymarket.

Definition SPORTS_TAGS : list string :=
  [ "sports"; "nba"; "nfl"; "mlb"; "nhl"; "soccer"; "football";
    "basketball"; "baseball"; "hockey"; "tennis"; "golf"; "mma"; "ufc";
    "boxing"; "f1"; "racing"; "olympics"; "esports" ].

(** A [Market] object with the two further fields the client's own methods
    read: [tags] and [end_date_iso]. *)
Record Listing : Type := mkListing {
  market : Market;
  tags : option (list string);
  end_date_iso : option string
}.

(** The property [safe_tags]: [self.tags if self.tags else []]. *)
Definition safe_tags (l : Listing) : list string :=
  match tags l with
  | Some ts => ts
  | None => []
  end.

(** [Market.is_sports_market]: a tag of [SPORTS_TAGS] is one of the
    lower-cased tags, or occurs in the lower-cased question. *)
Definition is_sports_market (l : Listing) : bool :=
  let tags_lower := map lower (safe_tags l) in
  let question_lower := lower (question (market l)) in
  existsb (fun sport_tag =>
             orb (existsb (String.eqb sport_tag) tags_lower)
                 (contains sport_tag question_lower))
          SPORTS_TAGS.

(** What one HTTP attempt of [_request] comes to: the decoded answer, a
    [requests.RequestException] (the only class the method catches), or any
    other exception. *)
Inductive Reply (A : Type) : Type :=
| Answered (a : A)
| RequestFailed (e : Exc)
| Crashed (e : Exc).
Arguments Answered {A} a.
Arguments RequestFailed {A} e.
Arguments Crashed {A} e.

(** What a call of [_request] does: what it returns or raises, how many
    attempts it makes, and the seconds it sleeps, in order. *)
Record Run (A : Type) : Type := mkRun {
  returned : Result A;
  attempts_made : nat;
  sleeps : list Z
}.
Arguments mkRun {A} returned attempts_made sleeps.
Arguments returned {A} r.
Arguments attempts_made {A} r.
Arguments sleeps {A} r.

(** [raise last_error or Exception("Request failed")]. *)
Definition give_up_with (last_error : option Exc) : Exc :=
  match last_error with
  | Some e => e
  | None => OtherError "Request failed"
  end.

(** The loop [for attempt in range(self.max_retries)] from iteration
    [attempt] on, with [todo] iterations left; [send k] is what attempt [k]
    comes to. *)
Fixpoint request_from {A} (send : nat -> Reply A) (max_retries : Z)
  (todo attempt : nat) (last_error : option Exc) : Run A :=
  match todo with
  | O => mkRun (Raise (give_up_with last_error)) 0 []
  | S todo' =>
      match send attempt with
      | Answered a => mkRun (Ok a) 1 []
      | Crashed e => mkRun (Raise e) 1 []
      | RequestFailed e =>
          let nap :=
            if (Z.of_nat attempt <? max_retries - 1)%Z
            then [(2 ^ Z.of_nat attempt)%Z] else [] in
          let rest := request_from send max_retries todo' (S attempt) (Some e) in
          mkRun (returned rest) (S (attempts_made rest)) (nap ++ sleeps rest)
      end
  end.

(** [PolymarketClient._request]. *)
Definition _request {A} (send : nat -> Reply A) (max_retries : Z) : Run A :=
  request_from send max_retries (Z.to_nat max_retries) 0 None.

(** The loop [for page in range(max_pages)] of [get_all_markets];
    [get_markets cursor] is what the call [self.get_markets(next_cursor=cursor)]
    comes to: the markets of the page and its [next_cursor], or an exception,
    which nothing here handles.  The result comes with the number of calls
    made. *)
Fixpoint pages_from {A}
  (get_markets : option string -> Result (list A * option string))
  (todo : nat) (next_cursor : option string) (all_markets : list A)
  : Result (list A) * nat :=
  match todo with
  | O => (Ok all_markets, 0)
  | S todo' =>
      match get_markets next_cursor with
      | Raise e => (Raise e, 1)
      | Ok (page, cursor) =>
          let all_markets' := all_markets ++ page in
          if truthy_str cursor
          then
            let '(r, n) := pages_from get_markets todo' cursor all_markets' in
            (r, S n)
          else (Ok all_markets', 1)
      end
  end.

Definition get_all_markets {A}
  (get_markets : option string -> Result (list A * option string))
  (max_pages : Z) : Result (list A) * nat :=
  pages_from get_markets (Z.to_nat max_pages) None [].

(** The sort key of [get_sports_markets]: [m.end_date_iso or "9999"]. *)
Definition end_key (l : Listing) : string :=
  match end_date_iso l with
  | Some s => if String.eqb s "" then "9999" else s
  | None => "9999"
  end.

(** [list.sort(key=..., reverse=False)] is a stable sort; its result is the
    one insertion from the right gives: an element goes before the first
    element whose key is not smaller than its own. *)
Fixpoint insert_by_key (x : Listing) (l : list Listing) : list Listing :=
  match l with
  | [] => [x]
  | y :: rest =>
      if String.leb (end_key x) (end_key y) then x :: y :: rest
      else y :: insert_by_key x rest
  end.

Definition sort_by_end_date (l : list Listing) : list Listing :=
  fold_right insert_by_key [] l.

(** [get_sports_markets]. *)
Definition get_sports_markets
  (get_markets : option string -> Result (list Listing * option string))
  (max_pages : Z) : Result (list Listing) :=
  all_markets <- fst (get_all_markets get_markets max_pages) ;;
  Ok (sort_by_end_date (filter is_sports_market all_markets)).

End Polymarket.

(* ================================================================== *)
(** ** Reading the metrics back ([get_model_metrics], [get_accuracy_summary]) *)
(* ================================================================== *)

Module Reporting.

(** [ModelMetrics(model_type=t)]: every other field at its default. *)
Definition empty_metrics (t : string) : ModelMetrics :=
  mkModelMetrics None t 0.0 0.0 0 0 None.

(** [SupabaseClient.get_model_metrics]: the remote rows when the client is
    connected and the select succeeds, three empty rows otherwise. *)
Definition get_model_metrics (c : Client) : list ModelMetrics :=
  if andb (is_connected c) (remote_ok c) then table_model_metrics c
  else [empty_metrics "historical"; empty_metrics "sentiment";
        empty_metrics "hybrid"].

(** An entry of the summary: [accuracy], [total], [correct]. *)
Definition Stats : Type := (float * nat * nat)%type.

(** [summary[k] = v] on a dictionary kept as the list of its items. *)
Fixpoint assign (k : string) (v : Stats) (d : list (string * Stats))
  : list (string * Stats) :=
  match d with
  | [] => [(k, v)]
  | (k', v') :: rest =>
      if String.eqb k' k then (k', v) :: rest
      else (k', v') :: assign k v rest
  end.

(** [PredictionScorer.get_accuracy_summary]. *)
Definition get_accuracy_summary (c : Client) : list (string * Stats) :=
  fold_left
    (fun summary m =>
       assign (model_type m)
              (accuracy_30d m, total_predictions m, correct_predictions m)
              summary)
    (get_model_metrics c) [].

End Reporting.

(* ================================================================== *)
(** ** Further notions and inputs used in the statements *)
(* ================================================================== *)

Module More.

Import Polymarket Reporting.

(** The seconds [_request] sleeps after the failed attempts [0 .. k-1]:
    1, 2, 4, ... *)
Definition backoff (k : nat) : list Z :=
  map (fun j => (2 ^ Z.of_nat j)%Z) (seq 0 k).

(** All the keywords of [SPORT_KEYWORDS], in table order. *)
Definition all_keywords : list string := flat_map snd SPORT_KEYWORDS.

(** The sports [SPORT_KEYWORDS] names. *)
Definition known_sports : list string := map fst SPORT_KEYWORDS.

(** The listings of a list that carry the sort key [k]. *)
Definition with_key (k : string) (l : list Listing) : list Listing :=
  filter (fun x => String.eqb (end_key x) k) l.

(** Two listings are in sort order. *)
Definition key_le (a b : Listing) : Prop :=
  String.leb (end_key a) (end_key b) = true.

(** A market source whose every attempt fails with a timeout. *)
Definition always_timeout (k : nat) : Reply (list Listing) :=
  RequestFailed (OtherError "requests.Timeout").

(** A market source that answers at its third attempt. *)
Definition third_time_lucky (k : nat) : Reply (list Listing) :=
  if (k <? 2)%nat then RequestFailed (OtherError "requests.ConnectionError")
  else Answered [].


(** The number of rows a local read returns at most: the loop of
    [_get_predictions_local] tests the limit after it has appended a row. *)
Definition local_cap (limit : Z) : nat := Z.to_nat (Z.max 1 limit).

(** The rows a local read lets through. *)
Definition passes (sport_filter : option string) (only_resolved : bool)
  (p : Prediction) : bool :=
  negb (local_skips sport_filter only_resolved p).

(** A client on the local store, before anything is saved. *)
Definition fresh_local : Client := mkClient true false [] [] None.

(** A prediction as [predict_market] emits it. *)
Definition emitted : Prediction :=
  mkPrediction None "0xa1" "nba" "Will the Lakers win?" "No" 0.5 0.5 0.3
               None None None None.

(** The one-hot sport columns of a feature schema, in table order. *)
Definition sport_columns : list string :=
  map (fun s => ("sport_" ++ s)%string) known_sports.


(** Artifacts where both models load and [scaler_params.json] is missing. *)
Definition scaler_missing : Artifacts :=
  mkArtifacts (Ok ["home_yes_price"]) (Raise FileNotFoundError)
              (Ok (Ex.constant_model 0.9)) (Ok (Ex.constant_model 0.8))
              (Raise FileNotFoundError) (Raise FileNotFoundError).

(** A loader whose historical model fails on every input. *)
Definition historical_fails : ModelLoader :=
  mkModelLoader (Some Ex.failing_model) None None None
                (Some ["home_yes_price"]) false.

(** Artifacts where the schema is read and both sentiment artifacts load;
    the Keras model answers 0.8 through [predict]. *)
Definition both_sentiment : Artifacts :=
  mkArtifacts (Ok ["home_yes_price"]) (Ok (mkScalerParams [] []))
              (Raise FileNotFoundError)
              (Ok (mkModel (fun _ => Ok 0.2%float) (fun _ => Ok 0.8%float)))
              (Ok (Ex.constant_model 0.6)) (Raise FileNotFoundError).

(** The three token lists of the specification's resolution examples, held
    by closed markets as [Token] objects, the only tokens the client
    builds. *)
Definition tokens_yes_won : Market :=
  Ex.closed_market [Ex.tok "Yes" 1.0; Ex.tok "No" 0.0].

Definition tokens_yes_near : Market :=
  Ex.closed_market [Ex.tok "Yes" 0.97; Ex.tok "No" 0.03].

Definition tokens_undecided : Market :=
  Ex.closed_market [Ex.tok "Yes" 0.6; Ex.tok "No" 0.4].

(** The loader [Ex.historical_only] with a meta-learner whose inference
    call fails. *)
Definition meta_learner_fails : ModelLoader :=
  mkModelLoader (Some (Ex.constant_model 0.9)) None (Some Ex.failing_model)
                None (Some ["home_yes_price"]) false.

End More.

(* ================================================================== *)
(** ** Resolution detection *)
(* ================================================================== *)

Lemma scan_tokens_mappings (test : float -> bool) (toks : list TokenObj) :
  forallb is_mapping toks = true ->
  scan_tokens test toks =
  Ok (option_map capitalize
        (option_map Spec.token_label (find (Spec.price_passes test) toks))).
Proof.
  induction toks as [|t rest IH]; intros Hmap; [reflexivity|].
  simpl in Hmap. apply andb_true_iff in Hmap as [Ht Hrest].
  destruct t as [tk|d]; [discriminate Ht|].
  cbn [scan_tokens token_get_price Py.bind find].
  unfold Spec.price_passes at 1. cbn [Spec.token_price].
  destruct (raw_price d) as [x|]; [|now apply IH].
  destruct (test x); [reflexivity|now apply IH].
Qed.

(** A loop over [Token] objects stops at its first token. *)
Lemma scan_tokens_model (test : float -> bool) (tk : Token)
  (rest : list TokenObj) :
  scan_tokens test (TModel tk :: rest) = Raise AttributeError.
Proof. reflexivity. Qed.

(** C9.  A market whose [closed] flag is false has no outcome, whatever its
    tokens hold: the token prices are only read for closed markets. *)
Theorem open_market_has_no_outcome (m : Market) :
  closed m = false -> get_market_outcome m = Ok None.
Proof.
  intros Hopen. unfold get_market_outcome. now rewrite Hopen.
Qed.

Lemma open_market_has_no_outcome_witness :
  closed Ex.open_validated = false /\
  Spec.price_passes price_is_one (Ex.tok "Yes" 1.0) = true /\
  get_market_outcome Ex.open_validated = Ok None.
Proof.
  split; [reflexivity|]. split; [reflexivity|].
  apply (open_market_has_no_outcome Ex.open_validated).
  reflexivity.
Defined.

(** The rule [get_market_outcome] is written to apply, which it does apply
    when every token is a mapping (no market of the client holds one): on a
    closed market, the capitalized label of the first token whose price
    equals 1.0 exactly; failing that, of the first token whose price exceeds
    0.95; and none when no token qualifies. *)
Lemma market_outcome_rule (m : Market) :
  forallb is_mapping (tokens m) = true ->
  get_market_outcome m =
  Ok (if closed m
      then option_map capitalize (Spec.resolved_outcome (tokens m))
      else None).
Proof.
  intros Hmap. unfold get_market_outcome, Spec.resolved_outcome.
  destruct (closed m); cbn [negb]; [|reflexivity].
  rewrite !(scan_tokens_mappings _ _ Hmap). cbn [Py.bind].
  destruct (find (Spec.price_passes price_is_one) (tokens m)); reflexivity.
Qed.

(** The three token lists of the specification's examples, were they lists
    of mappings on closed markets; a label in upper case comes back
    capitalized. *)
Example resolution_examples :
  get_market_outcome (Ex.closed_market Ex.yes_won) = Ok (Some "Yes") /\
  get_market_outcome (Ex.closed_market Ex.yes_near) = Ok (Some "Yes") /\
  get_market_outcome (Ex.closed_market Ex.undecided) = Ok None /\
  get_market_outcome Ex.closed_upper = Ok (Some "Yes").
Proof. repeat split; reflexivity. Qed.

(** C1, on the specification's three token lists held by closed markets as
    the [Token] objects the client builds.  The stated rule gives "Yes",
    "Yes" and none; the method raises [AttributeError] on all three, the
    undecided one included, and on the first list as the client delivers it
    (a price of 0 stored as no price).  The feature extractor reads the same
    tokens without failing. *)
Theorem market_outcome_fails_on_token_objects :
  (validated More.tokens_yes_won = true /\
   Spec.resolved_outcome (tokens More.tokens_yes_won) = Some "Yes" /\
   get_market_outcome More.tokens_yes_won = Raise AttributeError) /\
  (validated More.tokens_yes_near = true /\
   Spec.resolved_outcome (tokens More.tokens_yes_near) = Some "Yes" /\
   get_market_outcome More.tokens_yes_near = Raise AttributeError) /\
  (validated More.tokens_undecided = true /\
   Spec.resolved_outcome (tokens More.tokens_undecided) = None /\
   get_market_outcome More.tokens_undecided = Raise AttributeError) /\
  (validated Ex.closed_validated = true /\
   Spec.resolved_outcome (tokens Ex.closed_validated) = Some "Yes" /\
   get_market_outcome Ex.closed_validated = Raise AttributeError) /\
  (yes_price_of More.tokens_yes_near = 0.97%float /\
   no_price_of More.tokens_yes_near = 0.03%float).
Proof.
  split; [|split; [|split; [|split]]];
    (split; [reflexivity|split; reflexivity]) || (split; reflexivity).
Qed.

(* ================================================================== *)
(** ** The ensemble *)
(* ================================================================== *)

Lemma sport_item (m : Market) :
  dict_item "sport" (extract_features m)
  = Ok (VStr (_detect_sport (question m))).
Proof. reflexivity. Qed.

Lemma home_yes_price_item (m : Market) :
  dict_item "home_yes_price" (extract_features m)
  = Ok (VFloat (yes_price_of m)).
Proof. reflexivity. Qed.

(** What [hybrid_stage] computes on the features of a market. *)
Lemma hybrid_stage_cases (ml : ModelLoader) (m : Market) (h s : float) :
  hybrid_stage ml (extract_features m) h s =
  Ok match meta_learner ml with
     | None => yes_price_of m
     | Some mm =>
         match predict_proba mm (meta_input h s) with
         | Ok v => v
         | Raise _ => ((h + s) / 2)%float
         end
     end.
Proof.
  unfold hybrid_stage. destruct (meta_learner ml) as [mm|].
  - now destruct (predict_proba mm (meta_input h s)).
  - now rewrite home_yes_price_item.
Qed.

(** [predict_market] never raises, and skips exactly the markets whose sport
    is ["other"]. *)
Lemma predict_market_total (fos : string -> Result float) (ml : ModelLoader)
  (m : Market) :
  exists r, predict_market fos ml m = Ok r /\
            (r = None <-> _detect_sport (question m) = "other").
Proof.
  unfold predict_market. rewrite sport_item. cbn [Py.bind is_str as_str].
  rewrite hybrid_stage_cases. cbn [Py.bind].
  destruct (String.eqb_spec (_detect_sport (question m)) "other") as [E|E].
  - exists None. now split.
  - eexists. split; [reflexivity|]. split; [discriminate|contradiction].
Qed.

(** The fields of an emitted prediction. *)
Lemma predict_market_some (fos : string -> Result float) (ml : ModelLoader)
  (m : Market) (pred : Prediction) :
  predict_market fos ml m = Ok (Some pred) ->
  historical_confidence pred = historical_stage fos ml (extract_features m) /\
  sentiment_confidence pred = sentiment_stage fos ml (extract_features m) /\
  hybrid_stage ml (extract_features m) (historical_confidence pred)
    (sentiment_confidence pred) = Ok (hybrid_confidence pred) /\
  predicted_outcome pred = label_of (hybrid_confidence pred) /\
  actual_outcome pred = None.
Proof.
  unfold predict_market. rewrite sport_item. cbn [Py.bind is_str as_str].
  destruct (String.eqb (_detect_sport (question m)) "other"); [discriminate|].
  rewrite hybrid_stage_cases. cbn [Py.bind]. intros H.
  injection H as <-. cbn. rewrite hybrid_stage_cases. repeat split.
Qed.

Lemma last_cons_default {A} (l : list A) (a d : A) :
  last (a :: l) d = last l a.
Proof.
  revert a d. induction l as [|b l IH]; intros a d; [reflexivity|].
  change (last (a :: b :: l) d) with (last (b :: l) d).
  now rewrite !IH.
Qed.

(** The yes-price of [extract_features] is the price of the last priced
    Yes-token, and the initial value when there is none. *)
Lemma token_prices_yes (toks : list TokenObj) (y n : float) :
  fst (token_prices toks (y, n)) = last (Spec.yes_token_prices toks) y.
Proof.
  revert y n. induction toks as [|t rest IH]; intros y n; [reflexivity|].
  cbn [token_prices Spec.yes_token_prices flat_map].
  destruct t as [tk|d]; cbn [attr_price attr_outcome_lower app fst snd].
  - destruct (price tk) as [p|].
    + destruct (String.eqb (lower (outcome tk)) "yes").
      * cbn [app]. rewrite last_cons_default. apply IH.
      * destruct (String.eqb (lower (outcome tk)) "no"); apply IH.
    + destruct (String.eqb (lower (outcome tk)) "yes"); apply IH.
  - apply IH.
Qed.

Lemma yes_price_of_last (m : Market) :
  yes_price_of m = last (Spec.yes_token_prices (tokens m)) 0.5%float.
Proof. apply token_prices_yes. Qed.

(** C5.  With no historical model, no sentiment model and no meta-learner
    loaded, the hybrid confidence of an emitted prediction is the market's
    yes-price: the price of its (last) priced Yes-token, 0.5 when it has
    none. *)
Theorem degraded_hybrid_is_yes_price (fos : string -> Result float)
  (ml : ModelLoader) (m : Market) (pred : Prediction) :
  historical_model ml = None ->
  sentiment_model ml = None ->
  meta_learner ml = None ->
  predict_market fos ml m = Ok (Some pred) ->
  hybrid_confidence pred = last (Spec.yes_token_prices (tokens m)) 0.5%float.
Proof.
  intros _ _ Hmeta Hpred.
  apply predict_market_some in Hpred as (_ & _ & Hhyb & _).
  rewrite hybrid_stage_cases, Hmeta in Hhyb.
  injection Hhyb as <-. apply yes_price_of_last.
Qed.

Lemma degraded_hybrid_is_yes_price_witness :
  exists pred,
    predict_market Ex.no_parse new_loader Ex.lakers = Ok (Some pred) /\
    hybrid_confidence pred = 0.3%float.
Proof.
  eexists. split; [reflexivity|].
  exact (degraded_hybrid_is_yes_price Ex.no_parse new_loader Ex.lakers _
           eq_refl eq_refl eq_refl eq_refl).
Defined.

(** C7.  The label of an emitted prediction is "Yes" when its hybrid
    confidence exceeds 0.5 and "No" otherwise; a hybrid confidence of exactly
    0.5 gives "No". *)
Theorem label_follows_hybrid (fos : string -> Result float)
  (ml : ModelLoader) (m : Market) (pred : Prediction) :
  predict_market fos ml m = Ok (Some pred) ->
  predicted_outcome pred
  = (if PrimFloat.ltb 0.5 (hybrid_confidence pred) then "Yes" else "No") /\
  (hybrid_confidence pred = 0.5%float -> predicted_outcome pred = "No").
Proof.
  intros Hpred. apply predict_market_some in Hpred as (_ & _ & _ & Hlab & _).
  split; [exact Hlab|]. intros Htie. now rewrite Hlab, Htie.
Qed.

Lemma label_follows_hybrid_witness :
  exists pred,
    predict_market Ex.no_parse new_loader Ex.even_odds = Ok (Some pred) /\
    hybrid_confidence pred = 0.5%float /\
    predicted_outcome pred = "No".
Proof.
  eexists. split; [reflexivity|]. split; [reflexivity|].
  exact (proj2 (label_follows_hybrid Ex.no_parse new_loader Ex.even_odds _
                  eq_refl) eq_refl).
Defined.

(** The mean of the two stage confidences is the hybrid confidence only when
    a loaded meta-learner fails on its input. *)
Lemma hybrid_when_meta_learner_fails (fos : string -> Result float)
  (ml : ModelLoader) (m : Market) (pred : Prediction) (mm : Model) (e : Exc) :
  meta_learner ml = Some mm ->
  predict_market fos ml m = Ok (Some pred) ->
  predict_proba mm (meta_input (historical_confidence pred)
                               (sentiment_confidence pred)) = Raise e ->
  hybrid_confidence pred
  = ((historical_confidence pred + sentiment_confidence pred) / 2)%float.
Proof.
  intros Hmeta Hpred Hfail.
  apply predict_market_some in Hpred as (_ & _ & Hhyb & _).
  rewrite hybrid_stage_cases, Hmeta, Hfail in Hhyb. now injection Hhyb.
Qed.

(** What the [else] branch of the hybrid step does whenever no meta-learner
    is loaded, stage models or not: the hybrid confidence of an emitted
    prediction is the market's yes-price. *)
Lemma hybrid_without_meta_learner (fos : string -> Result float)
  (ml : ModelLoader) (m : Market) (pred : Prediction) :
  meta_learner ml = None ->
  historical_model ml <> None \/ sentiment_model ml <> None ->
  predict_market fos ml m = Ok (Some pred) ->
  hybrid_confidence pred = last (Spec.yes_token_prices (tokens m)) 0.5%float.
Proof.
  intros Hmeta _ Hpred.
  apply predict_market_some in Hpred as (_ & _ & Hhyb & _).
  rewrite hybrid_stage_cases, Hmeta in Hhyb.
  injection Hhyb as <-. apply yes_price_of_last.
Qed.

(** C2, on a market priced 0.3 for Yes, with the historical model loaded
    (answering 0.9), no sentiment model and no meta-learner.  The stage
    confidences are 0.9 and 0.5; the hybrid confidence is the yes-price 0.3,
    below both of them, where the weighted average at the default weight is
    0.7, and the label is "No" where the average gives "Yes".  No sampled
    weight gives 0.3.  With a meta-learner that is loaded and fails, the
    same market and models do give the average 0.7. *)
Theorem hybrid_drops_the_stage_confidences :
  (exists pred,
     predict_market Ex.no_parse Ex.historical_only Ex.lakers
     = Ok (Some pred) /\
     meta_learner Ex.historical_only = None /\
     historical_model Ex.historical_only = Some (Ex.constant_model 0.9) /\
     historical_confidence pred = 0.9%float /\
     sentiment_confidence pred = 0.5%float /\
     hybrid_confidence pred = 0.3%float /\
     Spec.weighted_average 0.5 (historical_confidence pred)
       (sentiment_confidence pred) = 0.7%float /\
     PrimFloat.ltb (hybrid_confidence pred) (sentiment_confidence pred)
     = true /\
     PrimFloat.ltb (hybrid_confidence pred) (historical_confidence pred)
     = true /\
     existsb (fun w => PrimFloat.eqb (hybrid_confidence pred)
                         (Spec.weighted_average w (historical_confidence pred)
                            (sentiment_confidence pred)))
             Ex.sample_weights = false /\
     predicted_outcome pred = "No" /\
     label_of (Spec.weighted_average 0.5 (historical_confidence pred)
                 (sentiment_confidence pred)) = "Yes") /\
  (exists pred,
     predict_market Ex.no_parse More.meta_learner_fails Ex.lakers
     = Ok (Some pred) /\
     historical_confidence pred = 0.9%float /\
     sentiment_confidence pred = 0.5%float /\
     hybrid_confidence pred = 0.7%float /\
     predicted_outcome pred = "Yes").
Proof.
  split.
  - eexists. split; [reflexivity|]. cbn.
    repeat (split; [reflexivity|]). reflexivity.
  - eexists. split; [reflexivity|]. cbn.
    repeat (split; [reflexivity|]). reflexivity.
Qed.

(* ================================================================== *)
(** ** Model loading *)
(* ================================================================== *)

(** When the schema block is left normally, [load_all] returns, and its flag
    tells whether the historical model or one of the two sentiment artifacts
    loaded; the meta-learner has no part in it. *)
Lemma load_all_returns (ml : ModelLoader) (a : Artifacts) :
  Aux.schema_absent_or_read a = true ->
  snd (load_all ml a)
  = Ok (is_ok (historical_joblib a)
        || (is_ok (sentiment_keras a) || is_ok (sentiment_joblib a)))%bool.
Proof.
  unfold Aux.schema_absent_or_read, load_all, load_schema.
  intros Hschema.
  assert (Hrest : forall ml1,
    snd (let '(ml2, success) := load_historical ml1 a false in
         let '(ml3, success0) := load_sentiment ml2 a success in
         (load_meta ml3 a, Ok success0))
    = Ok (is_ok (historical_joblib a)
          || (is_ok (sentiment_keras a) || is_ok (sentiment_joblib a)))%bool).
  { intros ml1. unfold load_historical, load_sentiment.
    destruct (historical_joblib a), (sentiment_keras a), (sentiment_joblib a);
      reflexivity. }
  destruct (feature_names_json a) as [fn|e].
  - destruct (scaler_params_json a) as [sp|e]; [apply Hrest|].
    rewrite Hschema. apply Hrest.
  - rewrite Hschema. apply Hrest.
Qed.

(** Any other failure of the schema block leaves [load_all] as an
    exception. *)
Lemma load_all_raises (ml : ModelLoader) (a : Artifacts) :
  Aux.schema_absent_or_read a = false ->
  exists e, snd (load_all ml a) = Raise e /\ is_FileNotFoundError e = false.
Proof.
  unfold Aux.schema_absent_or_read, load_all, load_schema.
  intros Hschema.
  destruct (feature_names_json a) as [fn|e].
  - destruct (scaler_params_json a) as [sp|e]; [discriminate|].
    rewrite Hschema. now exists e.
  - rewrite Hschema. now exists e.
Qed.

(** C8, on a schema file that exists and does not parse: [load_all] raises
    although every model artifact would load, and so does [initialize]; with
    only missing files and a loadable secondary sentiment artifact it returns
    true. *)
Theorem load_all_on_corrupt_schema :
  snd (load_all new_loader Ex.corrupt_schema)
  = Raise (OtherError "json.JSONDecodeError") /\
  snd (initialize new_loader Ex.corrupt_schema)
  = Raise (OtherError "json.JSONDecodeError") /\
  snd (load_all new_loader Ex.only_sklearn_sentiment) = Ok true.
Proof. repeat split. Qed.

(* ================================================================== *)
(** ** Scoring: the counters *)
(* ================================================================== *)

(** The loop adds one to [scored] or to [still_pending] for each pending
    prediction, and one to [correct] or to [wrong] for each scored one. *)
Lemma score_each_counts (ms : list Market) (now : string)
  (pending : list Prediction) :
  forall (c c' : Client) (r r' : Results),
    score_each ms now pending c r = (c', Ok r') ->
    total r' = total r /\
    scored r' + still_pending r' = scored r + still_pending r + length pending /\
    correct r' + wrong r' + scored r = correct r + wrong r + scored r'.
Proof.
  induction pending as [|p rest IH]; intros c c' r r' Hrun.
  - cbn in Hrun. injection Hrun as _ <-. cbn. lia.
  - cbn [score_each] in Hrun.
    destruct (market_lookup ms (market_id p)) as [m|].
    + destruct (get_market_outcome m) as [[o|]|e]; [| |discriminate].
      * destruct (score_prediction c p o now) as [c1 sc].
        apply IH in Hrun as (Ht & Hs & Hc). revert Ht Hs Hc.
        unfold add_scored. destruct (truthy_bool (is_correct sc)); cbn; lia.
      * apply IH in Hrun as (Ht & Hs & Hc). revert Ht Hs Hc. cbn. lia.
    + apply IH in Hrun as (Ht & Hs & Hc). revert Ht Hs Hc. cbn. lia.
Qed.

(** C10.  Whenever [score_pending_predictions] returns its dictionary,
    [total = scored + still_pending] and [scored = correct + wrong]. *)
Theorem counters_add_up (c c' : Client) (sport_filter : option string)
  (limit : Z) (ms : list Market) (now : string) (r : Results) :
  score_pending_predictions c sport_filter limit ms now = (c', Ok r) ->
  total r = scored r + still_pending r /\ scored r = correct r + wrong r.
Proof.
  unfold score_pending_predictions.
  destruct (pending_of c sport_filter limit) as [|p rest] eqn:Hpending.
  - intros H. injection H as _ <-. split; reflexivity.
  - intros H. apply score_each_counts in H as (Ht & Hs & Hc).
    cbn [total scored correct wrong still_pending] in Ht, Hs, Hc. lia.
Qed.

Lemma counters_add_up_witness :
  snd (score_pending_predictions
         (Ex.local_client [Ex.pending_a; Ex.pending_b; Ex.pending_c]) None 100
         Ex.markets_resolved Ex.now) = Ok (mkResults 3 2 1 1 1) /\
  (3 = 2 + 1 /\ 2 = 1 + 1).
Proof.
  split; [reflexivity|].
  apply (counters_add_up
           (Ex.local_client [Ex.pending_a; Ex.pending_b; Ex.pending_c])
           (fst (score_pending_predictions
                   (Ex.local_client [Ex.pending_a; Ex.pending_b; Ex.pending_c])
                   None 100 Ex.markets_resolved Ex.now))
           None 100%Z Ex.markets_resolved Ex.now (mkResults 3 2 1 1 1)).
  reflexivity.
Defined.

(* ================================================================== *)
(** ** Scoring: resolved predictions are left alone *)
(* ================================================================== *)

Lemma option_string_eqb_eq (a b : option string) :
  option_string_eqb a b = true <-> a = b.
Proof.
  destruct a as [x|], b as [y|]; cbn; try rewrite String.eqb_eq;
    split; congruence.
Qed.

Lemma option_string_eqb_neq (a b : option string) :
  a <> b -> option_string_eqb a b = false.
Proof.
  intros Hne. destruct (option_string_eqb a b) eqn:E; [|reflexivity].
  now apply option_string_eqb_eq in E.
Qed.

(** The local resolve rewrites one row, the first with the given id, and
    keeps every id. *)
Lemma resolve_first_rows (pid : option string) (actual now : string)
  (rows : list Prediction) :
  map id (fst (resolve_first pid actual now rows)) = map id rows /\
  forall i p, nth_error rows i = Some p -> id p <> pid ->
              nth_error (fst (resolve_first pid actual now rows)) i = Some p.
Proof.
  induction rows as [|a rest [IHids IHframe]]; [split; [reflexivity|auto]|].
  cbn [resolve_first].
  destruct (option_string_eqb (id a) pid) eqn:E.
  - split; [reflexivity|]. intros [|i] p Hnth Hne; cbn in *.
    + injection Hnth as <-. now apply option_string_eqb_eq in E.
    + exact Hnth.
  - destruct (resolve_first pid actual now rest) as [rest' res]. cbn in *.
    split; [now rewrite IHids|].
    intros [|i] p Hnth Hne; cbn in *; [exact Hnth|now apply IHframe].
Qed.

Lemma remote_update_other (pid : string) (fetched p : Prediction)
  (actual now : string) :
  id p <> Some pid -> remote_update pid fetched actual now p = p.
Proof.
  intros Hne. unfold remote_update, has_id.
  now rewrite (option_string_eqb_neq _ _ Hne).
Qed.

Lemma remote_update_id (pid : string) (fetched p : Prediction)
  (actual now : string) :
  id (remote_update pid fetched actual now p) = id p.
Proof. unfold remote_update. now destruct (has_id pid p). Qed.

(** What [resolve_prediction] does to the rows in use: the flags and the ids
    stay, and so does every row with another id. *)
Lemma resolve_prediction_rows (c : Client) (pid : option string)
  (actual now : string) :
  let c' := fst (resolve_prediction c pid actual now) in
  use_local c' = use_local c /\
  remote_ok c' = remote_ok c /\
  map id (Aux.rows c') = map id (Aux.rows c) /\
  forall i p, nth_error (Aux.rows c) i = Some p -> id p <> pid ->
              nth_error (Aux.rows c') i = Some p.
Proof.
  unfold resolve_prediction, Aux.rows, is_connected.
  destruct c as [ul ok table metrics loc]. cbn [use_local remote_ok
    table_predictions local_predictions].
  destruct ul; cbn [negb andb].
  - (* the local file *)
    unfold _resolve_prediction_local. cbn [local_predictions].
    destruct loc as [l|]; [|cbn; auto].
    destruct (resolve_first_rows pid actual now l) as [Hids Hframe].
    destruct (resolve_first pid actual now l) as [l' [r|]]; cbn in *; auto.
  - (* the remote table *)
    unfold _resolve_prediction_remote. cbn [remote_ok table_predictions].
    destruct ok; cbn [negb]; [|cbn; auto].
    destruct pid as [s|]; [|cbn; auto].
    destruct (filter (has_id s) table) as [|fetched [|x rest]]; cbn; auto.
    repeat split.
    + rewrite map_map. apply map_ext. intros p. apply remote_update_id.
    + intros i p Hnth Hne. rewrite nth_error_map, Hnth. cbn.
      now rewrite remote_update_other.
Qed.

Lemma score_prediction_rows (c : Client) (q : Prediction)
  (actual now : string) :
  let c' := fst (score_prediction c q actual now) in
  map id (Aux.rows c') = map id (Aux.rows c) /\
  forall i p, nth_error (Aux.rows c) i = Some p -> id p <> id q ->
              nth_error (Aux.rows c') i = Some p.
Proof.
  unfold score_prediction.
  destruct (resolve_prediction_rows c (id q) actual now) as (_ & _ & Hids & Hfr).
  destruct (resolve_prediction c (id q) actual now) as [c' [r|]]; cbn in *;
    auto.
Qed.

(** The scoring loop keeps every row whose id is the id of none of the
    predictions it handles, and keeps all ids. *)
Lemma score_each_rows (ms : list Market) (now : string)
  (pending : list Prediction) :
  forall (c : Client) (r : Results),
    map id (Aux.rows (fst (score_each ms now pending c r)))
    = map id (Aux.rows c) /\
    forall i p,
      nth_error (Aux.rows c) i = Some p ->
      (forall q, In q pending -> id p <> id q) ->
      nth_error (Aux.rows (fst (score_each ms now pending c r))) i = Some p.
Proof.
  induction pending as [|q rest IH]; intros c r; [split; auto|].
  cbn [score_each].
  assert (Hskip : forall r1,
    map id (Aux.rows (fst (score_each ms now rest c r1)))
    = map id (Aux.rows c) /\
    forall i p,
      nth_error (Aux.rows c) i = Some p ->
      (forall q0, In q0 (q :: rest) -> id p <> id q0) ->
      nth_error (Aux.rows (fst (score_each ms now rest c r1))) i = Some p).
  { intros r1. destruct (IH c r1) as [Hids Hfr]. split; [exact Hids|].
    intros i p Hnth Hne. apply Hfr; [exact Hnth|].
    intros q0 Hin. apply Hne. now right. }
  destruct (market_lookup ms (market_id q)) as [m|]; [|apply Hskip].
  destruct (get_market_outcome m) as [[o|]|e]; [| apply Hskip | split; auto].
  destruct (score_prediction_rows c q o now) as [Hids1 Hfr1].
  destruct (score_prediction c q o now) as [c1 sc]. cbn [fst] in Hids1, Hfr1.
  destruct (IH c1 (add_scored (truthy_bool (is_correct sc)) r)) as [Hids Hfr].
  split; [now rewrite Hids|].
  intros i p Hnth Hne. apply Hfr.
  - apply Hfr1; [exact Hnth|]. apply Hne. now left.
  - intros q0 Hin. apply Hne. now right.
Qed.

Lemma local_scan_In (limit : Z) (sport_filter : option string)
  (only_resolved : bool) (rows : list Prediction) :
  forall result q,
    In q (local_scan limit sport_filter only_resolved rows result) ->
    In q result \/ In q rows.
Proof.
  induction rows as [|p rest IH]; intros result q Hin; [now left|].
  cbn [local_scan] in Hin.
  destruct (local_skips sport_filter only_resolved p).
  - apply IH in Hin as [H|H]; [now left|right; now right].
  - destruct (Z.of_nat (length (result ++ [p])) >=? limit)%Z.
    + apply in_app_or in Hin as [H|[H|[]]]; [now left|right; now left].
    + apply IH in Hin as [H|H]; [|right; now right].
      apply in_app_or in H as [H|[H|[]]]; [now left|right; now left].
Qed.

Lemma In_firstn {A} (n : nat) (l : list A) (x : A) :
  In x (firstn n l) -> In x l.
Proof.
  revert l. induction n as [|n IH]; intros [|a l] H; cbn in H; try easy.
  destruct H as [H|H]; [now left|right; now apply IH].
Qed.

(** Every prediction [get_predictions] returns is one of the rows in use. *)
Lemma get_predictions_In (c : Client) (limit : Z)
  (sport_filter : option string) (only_resolved : bool) (q : Prediction) :
  In q (get_predictions c limit sport_filter only_resolved) ->
  In q (Aux.rows c).
Proof.
  unfold get_predictions, Aux.rows, _get_predictions_local, remote_select.
  assert (Hlocal :
    In q match local_predictions c with
         | Some rows => local_scan limit sport_filter only_resolved rows []
         | None => []
         end ->
    In q match local_predictions c with Some l => l | None => [] end).
  { destruct (local_predictions c) as [l|]; [|auto].
    intros H. now apply local_scan_In in H as [[]|H]. }
  destruct (is_connected c), (remote_ok c); cbn [andb]; try exact Hlocal.
  intros H. apply In_firstn in H. now apply filter_In in H.
Qed.

Lemma pending_of_In (c : Client) (sport_filter : option string) (limit : Z)
  (q : Prediction) :
  In q (pending_of c sport_filter limit) ->
  In q (Aux.rows c) /\ actual_outcome q = None.
Proof.
  unfold pending_of. intros H. apply filter_In in H as [Hin Hp].
  split; [now apply get_predictions_In in Hin|].
  unfold is_pending in Hp. now destruct (actual_outcome q).
Qed.

(** In a store whose ids are distinct, two different rows have different
    ids. *)
Lemma distinct_ids (rows : list Prediction) (i : nat) (p q : Prediction) :
  NoDup (map id rows) ->
  nth_error rows i = Some p -> In q rows -> q <> p -> id p <> id q.
Proof.
  intros Hnodup Hp Hq Hne Hid.
  apply In_nth_error in Hq as [j Hq].
  assert (Hi : i < length (map id rows)).
  { rewrite length_map. apply nth_error_Some. now rewrite Hp. }
  assert (Hij : i = j).
  { apply (proj1 (NoDup_nth_error (map id rows)) Hnodup i j Hi).
    now rewrite (map_nth_error id i rows Hp), (map_nth_error id j rows Hq), Hid. }
  subst j. rewrite Hp in Hq. now injection Hq as ->.
Qed.

(** A run of [score_pending_predictions] keeps the ids of the rows in use,
    and keeps every row that is already resolved. *)
Lemma score_pending_rows (c : Client) (sport_filter : option string)
  (limit : Z) (ms : list Market) (now : string) :
  let c' := fst (score_pending_predictions c sport_filter limit ms now) in
  map id (Aux.rows c') = map id (Aux.rows c) /\
  forall i p,
    NoDup (map id (Aux.rows c)) ->
    nth_error (Aux.rows c) i = Some p ->
    actual_outcome p <> None ->
    nth_error (Aux.rows c') i = Some p.
Proof.
  unfold score_pending_predictions.
  destruct (pending_of c sport_filter limit) as [|q0 rest] eqn:Hpending;
    [split; auto|].
  split; [apply score_each_rows|].
  intros i p Hnodup Hp Hres. apply score_each_rows; [exact Hp|].
  intros q Hq. rewrite <- Hpending in Hq.
  apply pending_of_In in Hq as [Hin Hnone].
  apply (distinct_ids (Aux.rows c) i p q Hnodup Hp Hin).
  intros ->. contradiction.
Qed.

(** C6.  In a store whose ids are distinct, a run of
    [score_pending_predictions] leaves every prediction that is already
    resolved as it is, whether the run returns or raises; such a prediction
    is not among the pending ones the run handles, and the counters of the
    run count those alone. *)
Theorem resolved_predictions_are_left_alone (c : Client)
  (sport_filter : option string) (limit : Z) (ms : list Market)
  (now : string) (i : nat) (p : Prediction) :
  NoDup (map id (Aux.rows c)) ->
  nth_error (Aux.rows c) i = Some p ->
  actual_outcome p <> None ->
  nth_error
    (Aux.rows (fst (score_pending_predictions c sport_filter limit ms now))) i
  = Some p /\
  ~ In p (pending_of c sport_filter limit) /\
  forall r,
    snd (score_pending_predictions c sport_filter limit ms now) = Ok r ->
    total r = length (pending_of c sport_filter limit) /\
    scored r <= length (pending_of c sport_filter limit).
Proof.
  intros Hnodup Hp Hres.
  split; [now apply score_pending_rows|].
  split.
  { intros Hin. now apply pending_of_In in Hin as [_ Hnone]. }
  unfold score_pending_predictions.
  destruct (pending_of c sport_filter limit) as [|q rest] eqn:Hpending.
  - intros r H. cbn in H. injection H as <-. cbn. split; lia.
  - intros r H.
    destruct (score_each ms now (q :: rest) c
                (mkResults (length (q :: rest)) 0 0 0 0)) as [c' res] eqn:Hrun.
    cbn [snd] in H. subst res.
    apply score_each_counts in Hrun as (Ht & Hs & _).
    cbn [total scored still_pending] in Ht, Hs. lia.
Qed.

Lemma resolved_predictions_are_left_alone_witness :
  NoDup (map id (Aux.rows Ex.mixed_store)) /\
  nth_error (Aux.rows Ex.mixed_store) 0 = Some Ex.resolved_local /\
  snd (score_pending_predictions Ex.mixed_store None 100 Ex.markets_resolved
         Ex.now) = Ok (mkResults 1 1 1 0 0) /\
  nth_error
    (Aux.rows (fst (score_pending_predictions Ex.mixed_store None 100
                       Ex.markets_resolved Ex.now))) 0
  = Some Ex.resolved_local.
Proof.
  assert (Hnodup : NoDup (map id (Aux.rows Ex.mixed_store))).
  { cbn. repeat constructor; cbn; intuition discriminate. }
  split; [exact Hnodup|]. split; [reflexivity|]. split; [reflexivity|].
  refine (proj1 (resolved_predictions_are_left_alone Ex.mixed_store None 100
                   Ex.markets_resolved Ex.now 0 Ex.resolved_local
                   Hnodup eq_refl _)).
  discriminate.
Defined.

(** Scoring twice: whatever the first run resolved or found resolved, a
    second run leaves as it is. *)
Corollary second_run_changes_no_resolved_prediction (c : Client)
  (sport_filter sport_filter' : option string) (limit limit' : Z)
  (ms ms' : list Market) (now now' : string) (i : nat) (p : Prediction) :
  NoDup (map id (Aux.rows c)) ->
  let c1 := fst (score_pending_predictions c sport_filter limit ms now) in
  nth_error (Aux.rows c1) i = Some p ->
  actual_outcome p <> None ->
  nth_error
    (Aux.rows (fst (score_pending_predictions c1 sport_filter' limit' ms' now')))
    i = Some p.
Proof.
  intros Hnodup c1 Hp Hres.
  apply score_pending_rows; [|exact Hp|exact Hres].
  assert (Hids : map id (Aux.rows c1) = map id (Aux.rows c))
    by apply score_pending_rows.
  now rewrite Hids.
Qed.

(* ================================================================== *)
(** ** Batches and failures *)
(* ================================================================== *)

(** The prediction loop never raises: each market contributes its own
    prediction or nothing, in market order. *)
Lemma predict_each_contributions (step : Market -> Result (option Prediction))
  (ms : list Market) :
  predict_each step ms = flat_map (Aux.contribution step) ms.
Proof.
  induction ms as [|m rest IH]; [reflexivity|].
  cbn [predict_each flat_map]. unfold Aux.contribution at 1.
  destruct (step m) as [[pred|]|e]; cbn [app]; now rewrite IH.
Qed.

(** A market whose prediction fails is skipped, and the markets before and
    after it are predicted as if it were not there. *)
Lemma predict_each_skips_failure (step : Market -> Result (option Prediction))
  (before after : list Market) (m : Market) (e : Exc) :
  step m = Raise e ->
  predict_each step (before ++ m :: after)
  = predict_each step (before ++ after).
Proof.
  intros Hfail. rewrite !predict_each_contributions, !flat_map_app.
  cbn [flat_map]. unfold Aux.contribution at 2. now rewrite Hfail.
Qed.

(** On a closed market the client has validated, [get_market_outcome]
    raises as soon as there is a token to read. *)
Lemma closed_validated_market_raises (m : Market) :
  closed m = true -> validated m = true -> tokens m <> [] ->
  get_market_outcome m = Raise AttributeError.
Proof.
  unfold get_market_outcome, validated. intros -> Hval Hne. cbn [negb].
  destruct (tokens m) as [|[tk|d] rest]; [contradiction|reflexivity|].
  discriminate Hval.
Qed.

(** An exception of [get_market_outcome] leaves the scoring loop at once:
    the predictions after it are not handled and no dictionary is
    returned. *)
Lemma score_each_propagates (ms : list Market) (now : string)
  (p : Prediction) (rest : list Prediction) (c : Client) (r : Results)
  (m : Market) (e : Exc) :
  market_lookup ms (market_id p) = Some m ->
  get_market_outcome m = Raise e ->
  score_each ms now (p :: rest) c r = (c, Raise e).
Proof. intros Hm He. cbn [score_each]. now rewrite Hm, He. Qed.

(** C4, on a batch of two pending predictions where the market of the
    first has closed: the scorer raises and reports nothing, although the
    second prediction alone is reported as still pending. *)
Theorem scorer_aborts_on_one_market :
  validated Ex.closed_validated = true /\
  snd (score_pending_predictions
         (Ex.local_client [Ex.pending_a; Ex.pending_b]) None 100
         Ex.markets_validated Ex.now) = Raise AttributeError /\
  snd (score_pending_predictions
         (Ex.local_client [Ex.pending_b]) None 100
         Ex.markets_validated Ex.now) = Ok (mkResults 1 0 0 0 1).
Proof. repeat split. Qed.

(* ================================================================== *)
(** ** Metrics *)
(* ================================================================== *)

(** The loop of [update_metrics] counts the predictions with an outcome and,
    among them, those the stage would have got right. *)
Lemma tally_counts (mtype : string) (resolved : list Prediction) :
  forall t k,
    tally mtype resolved (t, k)
    = (t + length (filter (fun p => truthy_str (actual_outcome p)) resolved),
       k + length (filter (fun p => truthy_str (actual_outcome p)
                                    && stage_correct mtype p)%bool resolved)).
Proof.
  induction resolved as [|p rest IH]; intros t k.
  - cbn. f_equal; lia.
  - cbn [tally filter fst snd].
    destruct (truthy_str (actual_outcome p)); cbn [andb].
    + destruct (stage_correct mtype p); rewrite IH; cbn [length]; f_equal; lia.
    + apply IH.
Qed.

(** The metrics [update_metrics] returns for a stage depend on that stage's
    confidences and on the actual outcomes alone, not on the stored
    [predicted_outcome] or [is_correct]. *)
Lemma returned_metrics_are_standalone (mtype : string)
  (l1 l2 : list Prediction) :
  map (Aux.stage_view mtype) l1 = map (Aux.stage_view mtype) l2 ->
  stage_metrics mtype l1 = stage_metrics mtype l2.
Proof.
  intros Hview. unfold stage_metrics.
  assert (Htally : forall acc, tally mtype l1 acc = tally mtype l2 acc).
  { revert l2 Hview. induction l1 as [|p l1 IH]; intros [|q l2] Hview acc;
      try discriminate; [reflexivity|].
    cbn [map] in Hview. injection Hview as Hc Ha Hrest.
    cbn [tally]. unfold stage_correct. rewrite Hc, Ha.
    destruct (truthy_str (actual_outcome q)); now apply IH. }
  now rewrite Htally.
Qed.

(** C3, on a connected store with one resolved prediction whose label "No"
    came from the hybrid stage and was wrong, and whose historical stage was
    right: the dictionary [update_metrics] returns credits the historical
    stage, but the rows it has the store persist are computed from
    [is_correct] and are the same for the three stages; a store that is not
    connected persists no row at all. *)
Theorem persisted_metrics_ignore_the_stage :
  map (fun km => Aux.figures (snd km))
      (snd (update_metrics (Ex.connected_client [Ex.resolved_yes]) Ex.now))
  = [("historical", 1, 1, 1.0%float); ("sentiment", 1, 0, 0.0%float);
     ("hybrid", 1, 0, 0.0%float)] /\
  map Aux.figures
      (table_model_metrics
         (fst (update_metrics (Ex.connected_client [Ex.resolved_yes]) Ex.now)))
  = [("historical", 1, 0, 0.0%float); ("sentiment", 1, 0, 0.0%float);
     ("hybrid", 1, 0, 0.0%float)] /\
  table_model_metrics
    (fst (update_metrics (Ex.local_client [Ex.resolved_yes]) Ex.now)) = [].
Proof. repeat split. Qed.

(* ================================================================== *)
(** ** The ids of the local store *)
(* ================================================================== *)

Lemma str_of_nat_inj (n k : nat) : str_of_nat n = str_of_nat k -> n = k.
Proof.
  unfold str_of_nat. intros H.
  apply (f_equal NilEmpty.uint_of_string) in H.
  rewrite !NilEmpty.usu in H. injection H as H.
  apply (f_equal Nat.of_uint) in H. now rewrite !Unsigned.of_to in H.
Qed.

Lemma local_id_inj (n k : nat) : local_id n = local_id k -> n = k.
Proof.
  unfold local_id. cbn [append]. intros H. injection H as H.
  now apply str_of_nat_inj.
Qed.

Lemma local_ids_NoDup (n : nat) : NoDup (Aux.local_ids n).
Proof.
  unfold Aux.local_ids. apply Injective_map_NoDup; [|apply seq_NoDup].
  intros a b H. injection H as H. now apply str_of_nat_inj.
Qed.

Lemma local_ids_succ (n : nat) :
  Aux.local_ids (S n) = Aux.local_ids n ++ [Some (local_id (n + 1))].
Proof.
  unfold Aux.local_ids. rewrite seq_S, map_app. cbn [map].
  now rewrite Nat.add_comm.
Qed.

(** Each write keeps the ids of the local file equal to [local_1], ...,
    [local_n]: a save appends the next id, a resolve changes no id. *)
Lemma local_write_ids (c : Client) (w : Aux.LocalWrite) :
  map id (Aux.local_rows c) = Aux.local_ids (length (Aux.local_rows c)) ->
  map id (Aux.local_rows (Aux.local_write c w))
  = Aux.local_ids (length (Aux.local_rows (Aux.local_write c w))).
Proof.
  intros Hids. destruct w as [prediction|pid actual now]; cbn [Aux.local_write].
  - unfold _save_prediction_local, Aux.local_rows in *.
    cbn [fst set_local_predictions local_predictions].
    destruct (local_predictions c) as [l|]; cbn [app length] in *.
    + rewrite map_app, length_app, Hids. cbn [map length id].
      now rewrite (Nat.add_comm (length l) 1), local_ids_succ, Nat.add_comm.
    + reflexivity.
  - unfold _resolve_prediction_local, Aux.local_rows in *.
    destruct (local_predictions c) as [l|] eqn:Hl; cbn [fst];
      [|now rewrite Hl].
    destruct (resolve_first_rows pid actual now l) as [Hsame _].
    destruct (resolve_first pid actual now l) as [l' [r|]];
      cbn [fst set_local_predictions local_predictions] in *;
      [|now rewrite Hl].
    rewrite Hsame, Hids. f_equal.
    apply (f_equal (@length _)) in Hsame. now rewrite !length_map in Hsame.
Qed.

(** Starting without a file, whatever the pipeline writes leaves a local file
    whose ids are distinct. *)
Lemma local_store_ids_are_distinct (c : Client) (ws : list Aux.LocalWrite) :
  local_predictions c = None ->
  NoDup (map id (Aux.local_rows (fold_left Aux.local_write ws c))).
Proof.
  intros Hnone.
  assert (Hinv : forall ws c0,
    map id (Aux.local_rows c0) = Aux.local_ids (length (Aux.local_rows c0)) ->
    map id (Aux.local_rows (fold_left Aux.local_write ws c0))
    = Aux.local_ids
        (length (Aux.local_rows (fold_left Aux.local_write ws c0)))).
  { clear. induction ws as [|w ws IH]; intros c0 H; [exact H|].
    cbn [fold_left]. apply IH. now apply local_write_ids. }
  rewrite Hinv; [apply local_ids_NoDup|].
  unfold Aux.local_rows. now rewrite Hnone.
Qed.

(** A client on the local store, begun without a file: after any writes of
    the pipeline, a run of [score_pending_predictions] leaves every resolved
    row of the file as it is. *)
Corollary local_resolved_rows_are_left_alone (c : Client)
  (ws : list Aux.LocalWrite) (sport_filter : option string) (limit : Z)
  (ms : list Market) (now : string) (i : nat) (p : Prediction) :
  use_local c = true ->
  local_predictions c = None ->
  let c1 := fold_left Aux.local_write ws c in
  nth_error (Aux.local_rows c1) i = Some p ->
  actual_outcome p <> None ->
  nth_error
    (Aux.local_rows (fst (score_pending_predictions c1 sport_filter limit ms now)))
    i = Some p.
Proof.
  intros Hlocal Hnone c1 Hp Hres.
  assert (Hkeep : forall c0 w, use_local (Aux.local_write c0 w) = use_local c0).
  { intros c0 [prediction|pid actual t]; cbn [Aux.local_write].
    - reflexivity.
    - unfold _resolve_prediction_local.
      destruct (local_predictions c0) as [l|]; [|reflexivity].
      now destruct (resolve_first pid actual t l) as [l' [r|]]. }
  assert (Hgen : forall ws0 c0, use_local c0 = true ->
                   use_local (fold_left Aux.local_write ws0 c0) = true).
  { clear - Hkeep. induction ws0 as [|w0 ws0 IH0]; intros c0 H0; [exact H0|].
    cbn [fold_left]. apply IH0. now rewrite Hkeep. }
  assert (Hlocal1 : use_local c1 = true) by now apply Hgen.
  assert (Hrows : forall c0, use_local c0 = true ->
                    Aux.rows c0 = Aux.local_rows c0).
  { intros c0 H0. unfold Aux.rows, Aux.local_rows, is_connected.
    now rewrite H0. }
  pose proof (score_pending_rows c1 sport_filter limit ms now) as [_ Hframe].
  assert (Hlocal2 :
    use_local (fst (score_pending_predictions c1 sport_filter limit ms now))
    = true).
  { unfold score_pending_predictions.
    destruct (pending_of c1 sport_filter limit) as [|q rest]; [exact Hlocal1|].
    generalize (mkResults (length (q :: rest)) 0 0 0 0).
    generalize (q :: rest) as pending. revert Hlocal1. generalize c1 as c0.
    intros c0 H0 pending. revert c0 H0.
    induction pending as [|q0 rest0 IH]; intros c0 H0 r; [exact H0|].
    cbn [score_each].
    destruct (market_lookup ms (market_id q0)) as [m|]; [|now apply IH].
    destruct (get_market_outcome m) as [[o|]|e]; [|now apply IH|exact H0].
    unfold score_prediction.
    pose proof (resolve_prediction_rows c0 (id q0) o now) as (Hul & _).
    destruct (resolve_prediction c0 (id q0) o now) as [c' [res|]];
      cbn [fst] in Hul; apply IH; now rewrite Hul. }
  rewrite <- (Hrows _ Hlocal2). apply Hframe.
  - rewrite (Hrows _ Hlocal1). now apply local_store_ids_are_distinct.
  - now rewrite (Hrows _ Hlocal1).
  - exact Hres.
Qed.

(* ================================================================== *)
(** ** The market client: retries *)
(* ================================================================== *)

Import Polymarket Reporting.

(** The loop of [_request] makes at most [todo] attempts and sleeps at most
    once per attempt it makes. *)
Lemma request_from_bounds {A} (send : nat -> Reply A) (max_retries : Z)
  (todo : nat) :
  forall attempt last_error,
    attempts_made (request_from send max_retries todo attempt last_error)
    <= todo /\
    length (sleeps (request_from send max_retries todo attempt last_error))
    <= attempts_made (request_from send max_retries todo attempt last_error).
Proof.
  induction todo as [|todo IH]; intros attempt last_error; cbn [request_from].
  - cbn. lia.
  - destruct (send attempt) as [a|e|e]; cbn; try lia.
    specialize (IH (S attempt) (Some e)).
    destruct (Z.of_nat attempt <? max_retries - 1)%Z; cbn [length app]; lia.
Qed.

(** X1.  Whatever the attempts come to, [_request] makes no more than
    [max_retries] attempts and sleeps no more often than it has attempted;
    with [max_retries <= 0] it makes no attempt at all and raises
    [Exception("Request failed")]. *)
Theorem request_is_bounded {A} (send : nat -> Reply A) (max_retries : Z) :
  attempts_made (_request send max_retries) <= Z.to_nat max_retries /\
  length (sleeps (_request send max_retries))
  <= attempts_made (_request send max_retries) /\
  ((max_retries <= 0)%Z ->
   _request send max_retries
   = mkRun (Raise (OtherError "Request failed")) 0 []).
Proof.
  unfold _request.
  destruct (request_from_bounds send max_retries (Z.to_nat max_retries) 0 None)
    as [Hn Hs].
  repeat split; [exact Hn|exact Hs|].
  intros Hle. replace (Z.to_nat max_retries) with 0 by lia. reflexivity.
Qed.

Lemma request_is_bounded_witness :
  (0 <= 0)%Z /\
  _request More.always_timeout 0
  = mkRun (Raise (OtherError "Request failed")) 0 [].
Proof.
  split; [lia|].
  apply (proj2 (proj2 (request_is_bounded More.always_timeout 0))). lia.
Defined.

(** The loop of [_request] when every remaining attempt fails with a
    request exception. *)
Lemma request_from_all_fail {A} (send : nat -> Reply A) (e : nat -> Exc)
  (max_retries : Z) (todo : nat) :
  forall attempt last_error,
    Z.of_nat (attempt + todo) = max_retries ->
    (forall k, attempt <= k < attempt + todo -> send k = RequestFailed (e k)) ->
    request_from send max_retries todo attempt last_error
    = mkRun (Raise (match todo with
                    | O => give_up_with last_error
                    | S t => e (attempt + t)
                    end))
            todo
            (map (fun j => (2 ^ Z.of_nat j)%Z) (seq attempt (todo - 1))).
Proof.
  induction todo as [|todo IH]; intros attempt last_error Hend Hfail;
    cbn [request_from]; [reflexivity|].
  rewrite (Hfail attempt) by lia.
  rewrite (IH (S attempt) (Some (e attempt))); [|lia|intros k Hk; apply Hfail; lia].
  cbn [returned attempts_made sleeps].
  destruct todo as [|t].
  - cbn [give_up_with Nat.sub seq map].
    replace (Z.of_nat attempt <? max_retries - 1)%Z with false
      by (symmetry; apply Z.ltb_ge; lia).
    now rewrite Nat.add_0_r.
  - replace (Z.of_nat attempt <? max_retries - 1)%Z with true
      by (symmetry; apply Z.ltb_lt; lia).
    cbn [Nat.sub seq map app]. rewrite Nat.sub_0_r.
    now replace (S attempt + t) with (attempt + S t) by lia.
Qed.

(** X2.  When every attempt fails with a request exception, [_request] makes
    exactly [max_retries] attempts, sleeps 1, 2, 4, ... seconds between them
    and not after the last one, and raises the exception of the last
    attempt. *)
Theorem request_gives_up (A : Type) (send : nat -> Reply A) (e : nat -> Exc)
  (max_retries : Z) :
  (0 < max_retries)%Z ->
  (forall k, k < Z.to_nat max_retries -> send k = RequestFailed (e k)) ->
  _request send max_retries
  = mkRun (Raise (e (Z.to_nat max_retries - 1))) (Z.to_nat max_retries)
          (More.backoff (Z.to_nat max_retries - 1)).
Proof.
  intros Hpos Hfail. unfold _request, More.backoff.
  rewrite (request_from_all_fail send e max_retries (Z.to_nat max_retries) 0 None);
    [|lia|intros k Hk; apply Hfail; lia].
  destruct (Z.to_nat max_retries) as [|t] eqn:Ht; [lia|].
  cbn [Nat.sub Nat.add]. now rewrite Nat.sub_0_r.
Qed.

Lemma request_gives_up_witness :
  (0 < 3)%Z /\
  _request More.always_timeout 3
  = mkRun (Raise (OtherError "requests.Timeout")) 3 [1; 2]%Z.
Proof.
  split; [lia|].
  apply (request_gives_up (list Listing) More.always_timeout
           (fun _ => OtherError "requests.Timeout") 3); [lia|].
  intros k _. reflexivity.
Defined.

(** The loop of [_request] up to the first attempt that is answered. *)
Lemma request_from_answer {A} (send : nat -> Reply A) (a : A)
  (max_retries : Z) (gap : nat) :
  forall todo attempt last_error,
    gap < todo ->
    (Z.of_nat (attempt + gap) < max_retries)%Z ->
    (forall k, attempt <= k < attempt + gap ->
               exists e, send k = RequestFailed e) ->
    send (attempt + gap) = Answered a ->
    request_from send max_retries todo attempt last_error
    = mkRun (Ok a) (S gap)
            (map (fun j => (2 ^ Z.of_nat j)%Z) (seq attempt gap)).
Proof.
  induction gap as [|gap IH]; intros todo attempt last_error Htodo Hlt Hfail Hans;
    (destruct todo as [|todo]; [lia|]); cbn [request_from].
  - rewrite Nat.add_0_r in Hans. now rewrite Hans.
  - destruct (Hfail attempt) as [e He]; [lia|]. rewrite He.
    rewrite (IH todo (S attempt) (Some e)); [|lia|lia| |].
    + cbn [returned attempts_made sleeps seq map].
      replace (Z.of_nat attempt <? max_retries - 1)%Z with true
        by (symmetry; apply Z.ltb_lt; lia).
      reflexivity.
    + intros k Hk. apply Hfail. lia.
    + now replace (S attempt + gap) with (attempt + S gap) by lia.
Qed.

(** X3.  When the attempts before attempt [k] fail with request exceptions
    and attempt [k < max_retries] is answered, [_request] returns that answer
    after [k + 1] attempts, having slept 1, 2, ..., 2^(k-1) seconds. *)
Theorem request_returns_first_answer (A : Type) (send : nat -> Reply A)
  (a : A) (max_retries : Z) (k : nat) :
  (Z.of_nat k < max_retries)%Z ->
  (forall j, j < k -> exists e, send j = RequestFailed e) ->
  send k = Answered a ->
  _request send max_retries = mkRun (Ok a) (S k) (More.backoff k).
Proof.
  intros Hlt Hfail Hans. unfold _request, More.backoff.
  apply request_from_answer; [lia|exact Hlt| |exact Hans].
  intros j Hj. apply Hfail. lia.
Qed.

Lemma request_returns_first_answer_witness :
  (Z.of_nat 2 < 3)%Z /\
  _request More.third_time_lucky 3 = mkRun (Ok []) 3 [1; 2]%Z.
Proof.
  split; [lia|].
  apply (request_returns_first_answer (list Listing) More.third_time_lucky
           [] 3 2); [lia| |reflexivity].
  intros j Hj. exists (OtherError "requests.ConnectionError").
  destruct j as [|[|j]]; [reflexivity|reflexivity|lia].
Defined.

(* ================================================================== *)
(** ** The market client: pages and order *)
(* ================================================================== *)

Lemma pages_from_calls {A}
  (get_markets : option string -> Result (list A * option string))
  (todo : nat) :
  forall cursor acc, snd (pages_from get_markets todo cursor acc) <= todo.
Proof.
  induction todo as [|todo IH]; intros cursor acc; cbn [pages_from];
    [cbn; lia|].
  destruct (get_markets cursor) as [[page next]|e]; [|cbn; lia].
  destruct (truthy_str next); [|cbn; lia].
  specialize (IH next (acc ++ page)).
  destruct (pages_from get_markets todo next (acc ++ page)) as [r n].
  cbn in *. lia.
Qed.

(** X4.  [get_all_markets] calls [get_markets] at most [max_pages] times,
    whatever the pages hold; with [max_pages <= 0] it makes no call and
    returns the empty list. *)
Theorem get_all_markets_is_capped (A : Type)
  (get_markets : option string -> Result (list A * option string))
  (max_pages : Z) :
  snd (get_all_markets get_markets max_pages) <= Z.to_nat max_pages /\
  ((max_pages <= 0)%Z -> get_all_markets get_markets max_pages = (Ok [], 0)).
Proof.
  unfold get_all_markets. split; [apply pages_from_calls|].
  intros Hle. replace (Z.to_nat max_pages) with 0 by lia. reflexivity.
Qed.




Lemma insert_by_key_perm (x : Listing) (l : list Listing) :
  Permutation (insert_by_key x l) (x :: l).
Proof.
  induction l as [|y rest IH]; cbn [insert_by_key]; [reflexivity|].
  destruct (String.leb (end_key x) (end_key y)); [reflexivity|].
  rewrite IH. apply perm_swap.
Qed.

Lemma sort_by_end_date_perm (l : list Listing) :
  Permutation (sort_by_end_date l) l.
Proof.
  induction l as [|x l IH]; [reflexivity|].
  cbn [sort_by_end_date fold_right]. rewrite insert_by_key_perm.
  now apply perm_skip.
Qed.

Lemma insert_by_key_sorted (x : Listing) (l : list Listing) :
  Sorted More.key_le l -> Sorted More.key_le (insert_by_key x l).
Proof.
  induction l as [|y rest IH]; intros Hs; cbn [insert_by_key].
  - repeat constructor.
  - destruct (String.leb (end_key x) (end_key y)) eqn:Hxy.
    + constructor; [exact Hs|]. constructor. exact Hxy.
    + assert (Hyx : More.key_le y x).
      { destruct (String.leb_total (end_key x) (end_key y)) as [H|H];
          [congruence|exact H]. }
      apply Sorted_inv in Hs as [Hrest Hhd].
      constructor; [now apply IH|].
      destruct rest as [|z rest']; cbn [insert_by_key].
      * now constructor.
      * destruct (String.leb (end_key x) (end_key z)); constructor;
          [exact Hyx|now apply HdRel_inv in Hhd].
Qed.

Lemma sort_by_end_date_sorted (l : list Listing) :
  Sorted More.key_le (sort_by_end_date l).
Proof.
  induction l as [|x l IH]; [constructor|].
  cbn [sort_by_end_date fold_right]. now apply insert_by_key_sorted.
Qed.

(** X6.  When the fetch succeeds, [get_sports_markets] returns the sports
    listings of the fetched list, all of them and each once, in ascending
    order of their key ([end_date_iso], or "9999" for a listing without
    one); when the fetch raises, so does [get_sports_markets]. *)
Theorem get_sports_markets_sorts_the_sports_listings
  (get_markets : option string -> Result (list Listing * option string))
  (max_pages : Z) :
  match fst (get_all_markets get_markets max_pages) with
  | Ok fetched =>
      exists sorted,
        get_sports_markets get_markets max_pages = Ok sorted /\
        Permutation sorted (filter is_sports_market fetched) /\
        Sorted More.key_le sorted
  | Raise e => get_sports_markets get_markets max_pages = Raise e
  end.
Proof.
  unfold get_sports_markets.
  destruct (fst (get_all_markets get_markets max_pages)) as [fetched|e];
    cbn [Py.bind]; [|reflexivity].
  eexists. split; [reflexivity|]. split.
  - apply sort_by_end_date_perm.
  - apply sort_by_end_date_sorted.
Qed.

Lemma with_key_insert (k : string) (x : Listing) (l : list Listing) :
  More.with_key k (insert_by_key x l) = More.with_key k (x :: l).
Proof.
  unfold More.with_key. induction l as [|y rest IH]; [reflexivity|].
  cbn [insert_by_key].
  destruct (String.leb (end_key x) (end_key y)) eqn:Hxy; [reflexivity|].
  cbn [filter] in *. rewrite IH.
  destruct (String.eqb_spec (end_key x) k) as [Hx|Hx]; [|reflexivity].
  destruct (String.eqb_spec (end_key y) k) as [Hy|Hy]; [|reflexivity].
  exfalso. rewrite Hx, Hy in Hxy.
  destruct (String.leb_total k k) as [H|H]; congruence.
Qed.

(** X7.  The sort of [get_sports_markets] is stable: listings with the same
    key (the same end date, or none) stay in the order in which they were
    fetched. *)
Theorem sort_by_end_date_is_stable (k : string) (l : list Listing) :
  More.with_key k (sort_by_end_date l) = More.with_key k l.
Proof.
  induction l as [|x l IH]; [reflexivity|].
  change (sort_by_end_date (x :: l))
    with (insert_by_key x (sort_by_end_date l)).
  rewrite with_key_insert.
  unfold More.with_key in *. cbn [filter]. now rewrite IH.
Qed.

(* ================================================================== *)
(** ** The store: reading *)
(* ================================================================== *)

(** The loop of [_get_predictions_local] collects the rows that pass the
    filters, in file order, until it holds [local_cap limit] of them. *)
Lemma local_scan_spec (limit : Z) (sport_filter : option string)
  (only_resolved : bool) (rows : list Prediction) :
  forall result,
    length result < More.local_cap limit ->
    local_scan limit sport_filter only_resolved rows result
    = result ++ firstn (More.local_cap limit - length result)
                       (filter (More.passes sport_filter only_resolved) rows).
Proof.
  unfold More.local_cap, More.passes.
  induction rows as [|p rest IH]; intros result Hlen; cbn [local_scan filter].
  - now rewrite firstn_nil, app_nil_r.
  - destruct (local_skips sport_filter only_resolved p); cbn [negb];
      [now apply IH|].
    rewrite length_app. cbn [length].
    destruct (Z.to_nat (Z.max 1 limit) - length result) as [|k] eqn:Hk; [lia|].
    cbn [firstn].
    destruct (Z.of_nat (length result + 1) >=? limit)%Z eqn:Hstop.
    + apply Z.geb_le in Hstop. replace k with 0 by lia. reflexivity.
    + rewrite Z.geb_leb in Hstop. apply Z.leb_gt in Hstop.
      rewrite IH by (rewrite length_app; cbn [length]; lia).
      rewrite length_app. cbn [length]. rewrite <- app_assoc. cbn [app].
      now replace (Z.to_nat (Z.max 1 limit) - (length result + 1)) with k
        by lia.
Qed.

Lemma local_read_spec (c : Client) (limit : Z) (sport_filter : option string)
  (only_resolved : bool) :
  _get_predictions_local c limit sport_filter only_resolved
  = firstn (More.local_cap limit)
           (filter (More.passes sport_filter only_resolved) (Aux.local_rows c)).
Proof.
  unfold _get_predictions_local, Aux.local_rows.
  destruct (local_predictions c) as [rows|]; [|now rewrite firstn_nil].
  rewrite local_scan_spec by (unfold More.local_cap; cbn [length]; lia).
  cbn [app length]. now rewrite Nat.sub_0_r.
Qed.

(** X8.  A local read returns the rows of the file that pass its filters,
    oldest first, cut after [max(1, limit)] rows: with [limit <= 0] it still
    returns the first passing row. *)
Theorem local_read_is_first_rows (c : Client) (limit : Z)
  (sport_filter : option string) (only_resolved : bool) :
  _get_predictions_local c limit sport_filter only_resolved
  = firstn (Z.to_nat (Z.max 1 limit))
           (filter (fun p => negb (local_skips sport_filter only_resolved p))
                   (Aux.local_rows c)) /\
  length (_get_predictions_local c limit sport_filter only_resolved)
  <= Z.to_nat (Z.max 1 limit).
Proof.
  rewrite local_read_spec. split; [reflexivity|].
  rewrite length_firstn. unfold More.local_cap. lia.
Qed.

(** X9.  Whatever the backend, [get_predictions] returns rows of the store in
    use; with [only_resolved] each has an actual outcome, and with a
    non-empty sport filter each is of that sport. *)
Theorem get_predictions_respects_its_filters (c : Client) (limit : Z)
  (sport_filter : option string) (only_resolved : bool) (p : Prediction) :
  In p (get_predictions c limit sport_filter only_resolved) ->
  In p (Aux.rows c) /\
  (only_resolved = true -> actual_outcome p <> None) /\
  (forall s, sport_filter = Some s -> s <> "" -> sport p = s).
Proof.
  intros Hin. split; [now apply get_predictions_In in Hin|].
  assert (Hkeep :
    local_skips sport_filter only_resolved p = false \/
    remote_keeps sport_filter only_resolved p = true).
  { unfold get_predictions in Hin.
    destruct (is_connected c), (remote_ok c);
      try (left; rewrite local_read_spec in Hin; apply In_firstn in Hin;
           apply filter_In in Hin as [_ H]; unfold More.passes in H;
           now apply negb_true_iff in H).
    right. unfold remote_select in Hin. apply In_firstn in Hin.
    now apply filter_In in Hin. }
  split.
  - intros -> Hnone.
    destruct Hkeep as [H|H]; unfold local_skips, remote_keeps in H;
      rewrite Hnone in H;
      destruct (truthy_str sport_filter),
        (option_string_eqb (Some (sport p)) sport_filter);
      cbn in H; discriminate.
  - intros s -> Hs.
    assert (Htruthy : truthy_str (Some s) = true).
    { cbn. now destruct (String.eqb_spec s ""). }
    destruct Hkeep as [H|H]; unfold local_skips, remote_keeps in H;
      rewrite Htruthy in H; cbn [option_string_eqb] in H;
      destruct (String.eqb_spec (sport p) s) as [E|E]; try exact E;
      cbn in H; try discriminate;
      destruct only_resolved; cbn in H; discriminate.
Qed.

Lemma get_predictions_respects_its_filters_witness :
  In Ex.resolved_yes
     (get_predictions (Ex.connected_client [Ex.pending_a; Ex.resolved_yes])
                      10 (Some "nba") true) /\
  actual_outcome Ex.resolved_yes <> None /\
  sport Ex.resolved_yes = "nba".
Proof.
  assert (Hin : In Ex.resolved_yes
     (get_predictions (Ex.connected_client [Ex.pending_a; Ex.resolved_yes])
                      10 (Some "nba") true)) by (left; reflexivity).
  split; [exact Hin|].
  destruct (get_predictions_respects_its_filters _ _ _ _ _ Hin)
    as (_ & Hres & Hsport).
  split; [now apply Hres|]. apply (Hsport "nba"); [reflexivity|discriminate].
Defined.

(* ================================================================== *)
(** ** The store: writing *)
(* ================================================================== *)

Lemma resolve_first_absent (pid : option string) (actual now : string)
  (rows : list Prediction) :
  (forall p, In p rows -> id p <> pid) ->
  resolve_first pid actual now rows = (rows, None).
Proof.
  induction rows as [|a rest IH]; intros Habs; [reflexivity|].
  cbn [resolve_first].
  rewrite (option_string_eqb_neq _ _ (Habs a (or_introl eq_refl))).
  rewrite IH; [reflexivity|]. intros p Hp. apply Habs. now right.
Qed.

(** X10.  Resolving an id that no row of the store in use carries returns
    [None] and leaves the client's stores as they are. *)
Theorem resolve_of_unknown_id (c : Client) (pid : option string)
  (actual now : string) :
  (forall p, In p (Aux.rows c) -> id p <> pid) ->
  resolve_prediction c pid actual now = (c, None).
Proof.
  unfold resolve_prediction, Aux.rows, is_connected.
  destruct (use_local c) eqn:Hul; cbn [negb andb]; intros Habs.
  - unfold _resolve_prediction_local.
    destruct (local_predictions c) as [rows|]; [|reflexivity].
    now rewrite resolve_first_absent.
  - unfold _resolve_prediction_remote.
    destruct (remote_ok c); cbn [negb]; [|reflexivity].
    destruct pid as [s|]; [|reflexivity].
    assert (Hnone : filter (has_id s) (table_predictions c) = []).
    { induction (table_predictions c) as [|a rest IH]; [reflexivity|].
      cbn [filter]. unfold has_id at 1.
      rewrite (option_string_eqb_neq _ _ (Habs a (or_introl eq_refl))).
      apply IH. intros p Hp. apply Habs. now right. }
    now rewrite Hnone.
Qed.

Lemma resolve_of_unknown_id_witness :
  resolve_prediction Ex.mixed_store (Some "local_9") "Yes" Ex.now
  = (Ex.mixed_store, None).
Proof.
  apply (resolve_of_unknown_id Ex.mixed_store (Some "local_9") "Yes" Ex.now).
  intros p [<-|[<-|[]]]; discriminate.
Defined.

Lemma resolve_first_found (actual now : string) (before after : list Prediction)
  (p : Prediction) :
  (forall q, In q before -> id q <> id p) ->
  resolve_first (id p) actual now (before ++ p :: after)
  = (before ++ resolve_row p actual now :: after,
     Some (resolve_row p actual now)).
Proof.
  induction before as [|a rest IH]; intros Hbefore; cbn [app resolve_first].
  - now rewrite (proj2 (option_string_eqb_eq (id p) (id p)) eq_refl).
  - rewrite (option_string_eqb_neq _ _ (Hbefore a (or_introl eq_refl))).
    rewrite IH; [reflexivity|]. intros q Hq. apply Hbefore. now right.
Qed.

(** X11.  On the local store, resolving the id of a row rewrites the first
    row with that id and nothing else: the row gets the actual outcome, the
    correctness of its own label (compared without regard to case) and the
    resolution time, keeps its other fields, and is what the call returns. *)
Theorem local_resolve_marks_the_row (c : Client)
  (before after : list Prediction) (p : Prediction) (actual now : string) :
  use_local c = true ->
  local_predictions c = Some (before ++ p :: after) ->
  (forall q, In q before -> id q <> id p) ->
  exists r,
    resolve_prediction c (id p) actual now
    = (set_local_predictions c (before ++ r :: after), Some r) /\
    actual_outcome r = Some actual /\
    is_correct r
    = Some (String.eqb (lower (predicted_outcome p)) (lower actual)) /\
    resolved_at r = Some now /\
    (id r, market_id r, predicted_outcome r, hybrid_confidence r, created_at r)
    = (id p, market_id p, predicted_outcome p, hybrid_confidence p,
       created_at p).
Proof.
  intros Hul Hrows Hbefore. exists (resolve_row p actual now).
  split; [|repeat split].
  unfold resolve_prediction, is_connected, _resolve_prediction_local.
  rewrite Hul, Hrows. cbn [negb]. now rewrite resolve_first_found.
Qed.

Lemma local_resolve_marks_the_row_witness :
  exists r,
    resolve_prediction Ex.mixed_store (Some "local_2") "YES" Ex.now
    = (Ex.local_client [Ex.resolved_local; r], Some r) /\
    actual_outcome r = Some "YES" /\
    is_correct r = Some true.
Proof.
  destruct (local_resolve_marks_the_row Ex.mixed_store [Ex.resolved_local] []
              Ex.pending_local "YES" Ex.now eq_refl eq_refl)
    as (r & Hrun & Hact & Hok & _).
  - intros q [<-|[]]. discriminate.
  - exists r. split; [exact Hrun|]. split; [exact Hact|exact Hok].
Defined.

Lemma resolve_row_again (p : Prediction) (a b t1 t2 : string) :
  resolve_row (resolve_row p a t1) b t2 = resolve_row p b t2.
Proof. reflexivity. Qed.

Lemma resolve_first_again (pid : option string) (a b t1 t2 : string)
  (rows : list Prediction) :
  resolve_first pid b t2 (fst (resolve_first pid a t1 rows))
  = resolve_first pid b t2 rows.
Proof.
  induction rows as [|x rest IH]; [reflexivity|].
  cbn [resolve_first].
  destruct (option_string_eqb (id x) pid) eqn:E.
  - cbn [fst resolve_first]. cbn [id resolve_row]. now rewrite E.
  - destruct (resolve_first pid a t1 rest) as [rest' r] eqn:Hrest.
    cbn [fst] in *. cbn [resolve_first]. now rewrite E, IH.
Qed.

Lemma resolve_first_finds (pid : option string) (a b t1 t2 : string)
  (rows : list Prediction) :
  snd (resolve_first pid a t1 rows) = None ->
  snd (resolve_first pid b t2 rows) = None.
Proof.
  induction rows as [|x rest IH]; [reflexivity|]. cbn [resolve_first].
  destruct (option_string_eqb (id x) pid); [discriminate|].
  destruct (resolve_first pid a t1 rest) as [ra oa].
  destruct (resolve_first pid b t2 rest) as [rb ob]. cbn in *. exact IH.
Qed.

(** X12.  [resolve_prediction] does not look at whether a row is already
    resolved: on the local store, resolving an id a second time overwrites
    the first resolution, and the store and the returned prediction are the
    ones a single resolve with the second outcome gives. *)
Theorem local_resolve_last_write_wins (c : Client) (pid : option string)
  (a b t1 t2 : string) :
  use_local c = true ->
  resolve_prediction (fst (resolve_prediction c pid a t1)) pid b t2
  = resolve_prediction c pid b t2.
Proof.
  intros Hul. unfold resolve_prediction, is_connected.
  assert (Hkeep : use_local (fst (_resolve_prediction_local c pid a t1)) = true).
  { unfold _resolve_prediction_local.
    destruct (local_predictions c) as [rows|]; [|exact Hul].
    now destruct (resolve_first pid a t1 rows) as [rows' [r|]]. }
  rewrite Hul. cbn [negb]. rewrite Hkeep. cbn [negb].
  unfold _resolve_prediction_local.
  destruct (local_predictions c) as [rows|] eqn:Hrows; cbn [fst];
    [|now rewrite Hrows].
  pose proof (resolve_first_again pid a b t1 t2 rows) as Hagain.
  destruct (resolve_first pid a t1 rows) as [rows1 [r1|]] eqn:H1;
    cbn [fst] in *.
  - cbn [set_local_predictions local_predictions]. rewrite Hagain.
    pose proof (resolve_first_finds pid b a t2 t1 rows) as Hfound.
    rewrite H1 in Hfound.
    destruct (resolve_first pid b t2 rows) as [rows2 [r2|]]; [reflexivity|].
    now specialize (Hfound eq_refl).
  - rewrite Hrows.
    reflexivity.
Qed.

Lemma local_resolve_last_write_wins_witness :
  use_local Ex.mixed_store = true /\
  option_map actual_outcome
    (snd (resolve_prediction
            (fst (resolve_prediction Ex.mixed_store (Some "local_1") "No" Ex.now))
            (Some "local_1") "Maybe" Ex.now)) = Some (Some "Maybe").
Proof.
  split; [reflexivity|].
  now rewrite (local_resolve_last_write_wins Ex.mixed_store (Some "local_1")
                 "No" "Maybe" Ex.now Ex.now eq_refl).
Defined.

Lemma local_writes_ids (ws : list Aux.LocalWrite) :
  forall c,
    map id (Aux.local_rows c) = Aux.local_ids (length (Aux.local_rows c)) ->
    map id (Aux.local_rows (fold_left Aux.local_write ws c))
    = Aux.local_ids (length (Aux.local_rows (fold_left Aux.local_write ws c))).
Proof.
  induction ws as [|w ws IH]; intros c H; [exact H|].
  cbn [fold_left]. apply IH. now apply local_write_ids.
Qed.

Lemma local_write_flag (c : Client) (w : Aux.LocalWrite) :
  use_local (Aux.local_write c w) = use_local c.
Proof.
  destruct w as [prediction|pid actual t]; cbn [Aux.local_write];
    [reflexivity|].
  unfold _resolve_prediction_local.
  destruct (local_predictions c) as [l|]; [|reflexivity].
  now destruct (resolve_first pid actual t l) as [l' [r|]].
Qed.

Lemma local_writes_flag (ws : list Aux.LocalWrite) :
  forall c, use_local (fold_left Aux.local_write ws c) = use_local c.
Proof.
  induction ws as [|w ws IH]; intros c; [reflexivity|].
  cbn [fold_left]. now rewrite IH, local_write_flag.
Qed.

(** X13.  Starting without a file, after any sequence of local saves and
    resolves the ids in the file are [local_1], [local_2], ..., [local_n] in
    file order: a save numbers its row by the length of the file, and a
    resolve changes no id. *)
Theorem local_ids_are_sequential (c : Client) (ws : list Aux.LocalWrite) :
  local_predictions c = None ->
  map id (Aux.local_rows (fold_left Aux.local_write ws c))
  = map (fun k => Some (local_id k))
        (seq 1 (length (Aux.local_rows (fold_left Aux.local_write ws c)))).
Proof.
  intros Hnone. apply local_writes_ids.
  unfold Aux.local_rows. now rewrite Hnone.
Qed.

Lemma local_ids_are_sequential_witness :
  local_predictions More.fresh_local = None /\
  map id (Aux.local_rows
            (fold_left Aux.local_write
               [Aux.Save More.emitted; Aux.Save More.emitted;
                Aux.Resolve (Some "local_1") "Yes" Ex.now;
                Aux.Save More.emitted]
               More.fresh_local))
  = [Some "local_1"; Some "local_2"; Some "local_3"].
Proof.
  split; [reflexivity|].
  exact (local_ids_are_sequential More.fresh_local
           [Aux.Save More.emitted; Aux.Save More.emitted;
            Aux.Resolve (Some "local_1") "Yes" Ex.now;
            Aux.Save More.emitted] eq_refl).
Defined.




(** X15.  A local read that is already full does not change when a
    prediction is saved: reads are oldest first, so the rows saved after the
    first [max(1, limit)] passing ones are never returned. *)
Theorem full_local_read_ignores_saves (c : Client) (p : Prediction)
  (limit : Z) (sport_filter : option string) (only_resolved : bool) :
  length (_get_predictions_local c limit sport_filter only_resolved)
  = Z.to_nat (Z.max 1 limit) ->
  _get_predictions_local (fst (_save_prediction_local c p)) limit
    sport_filter only_resolved
  = _get_predictions_local c limit sport_filter only_resolved.
Proof.
  rewrite !local_read_spec. unfold More.local_cap. intros Hfull.
  unfold _save_prediction_local, Aux.local_rows in *.
  cbn [fst set_local_predictions local_predictions].
  rewrite filter_app, firstn_app.
  rewrite length_firstn in Hfull.
  replace (Z.to_nat (Z.max 1 limit) -
           length (filter (More.passes sport_filter only_resolved)
                     match local_predictions c with
                     | Some l => l
                     | None => []
                     end)) with 0 by lia.
  cbn [firstn]. now rewrite app_nil_r.
Qed.

Lemma full_local_read_ignores_saves_witness :
  length (_get_predictions_local Ex.mixed_store 2 None false) = 2 /\
  _get_predictions_local
    (fst (_save_prediction_local Ex.mixed_store More.emitted)) 2 None false
  = [Ex.resolved_local; Ex.pending_local].
Proof.
  split; [reflexivity|].
  now rewrite (full_local_read_ignores_saves Ex.mixed_store More.emitted 2
                 None false eq_refl).
Defined.

(** X16.  Save, then resolve: in a local file the pipeline has written, the
    id a save returns resolves the row just saved: the call returns that
    prediction with the actual outcome and its correctness set. *)
Theorem local_save_then_resolve (c0 : Client) (ws : list Aux.LocalWrite)
  (p : Prediction) (actual now : string) :
  use_local c0 = true ->
  local_predictions c0 = None ->
  snd (resolve_prediction
         (fst (_save_prediction_local (fold_left Aux.local_write ws c0) p))
         (id (snd (_save_prediction_local (fold_left Aux.local_write ws c0) p)))
         actual now)
  = Some (resolve_row
            (snd (_save_prediction_local (fold_left Aux.local_write ws c0) p))
            actual now).
Proof.
  intros Hul Hnone.
  pose proof (local_ids_NoDup
                (S (length (Aux.local_rows (fold_left Aux.local_write ws c0)))))
    as Hnodup.
  pose proof (local_writes_ids ws c0) as Hids.
  pose proof (local_writes_flag ws c0) as Hflag. rewrite Hul in Hflag.
  set (c := fold_left Aux.local_write ws c0) in *.
  assert (Hids' : map id (Aux.local_rows c)
                  = Aux.local_ids (length (Aux.local_rows c))).
  { apply Hids. unfold Aux.local_rows. now rewrite Hnone. }
  unfold resolve_prediction, is_connected, _save_prediction_local.
  cbn [fst snd set_local_predictions use_local]. rewrite Hflag. cbn [negb].
  unfold _resolve_prediction_local.
  cbn [local_predictions set_local_predictions].
  fold (Aux.local_rows c).
  set (saved := mkPrediction _ _ _ _ _ _ _ _ _ _ _ _).
  change (Some (local_id (length (Aux.local_rows c) + 1))) with (id saved).
  rewrite (resolve_first_found actual now (Aux.local_rows c) [] saved);
    [reflexivity|].
  intros q Hq Heq.
  rewrite local_ids_succ in Hnodup. rewrite <- Hids' in Hnodup.
  apply NoDup_remove_2 in Hnodup. apply Hnodup. rewrite app_nil_r.
  change (Some (local_id (length (Aux.local_rows c) + 1))) with (id saved).
  rewrite <- Heq. now apply in_map.
Qed.

Lemma local_save_then_resolve_witness :
  use_local More.fresh_local = true /\
  local_predictions More.fresh_local = None /\
  option_map (fun r => (id r, actual_outcome r, is_correct r))
    (snd (resolve_prediction
            (fst (_save_prediction_local
                    (fold_left Aux.local_write [Aux.Save More.emitted]
                       More.fresh_local) More.emitted))
            (id (snd (_save_prediction_local
                        (fold_left Aux.local_write [Aux.Save More.emitted]
                           More.fresh_local) More.emitted)))
            "NO" Ex.now))
  = Some (Some "local_2", Some "NO", Some true).
Proof.
  split; [reflexivity|]. split; [reflexivity|].
  now rewrite (local_save_then_resolve More.fresh_local [Aux.Save More.emitted]
                 More.emitted "NO" Ex.now eq_refl eq_refl).
Defined.

(* ================================================================== *)
(** ** Metrics: what is computed, returned and read back *)
(* ================================================================== *)

Lemma get_predictions_length_1000 (c : Client) (sport_filter : option string)
  (only_resolved : bool) :
  length (get_predictions c 1000 sport_filter only_resolved) <= 1000.
Proof.
  unfold get_predictions, remote_select.
  destruct (is_connected c), (remote_ok c);
    rewrite ?local_read_spec, length_firstn; unfold More.local_cap; lia.
Qed.

Lemma update_model_metrics_reads (c : Client) (mtype now : string) :
  forall limit sport_filter only_resolved,
    get_predictions (fst (update_model_metrics c mtype now)) limit
      sport_filter only_resolved
    = get_predictions c limit sport_filter only_resolved.
Proof.
  intros limit sport_filter only_resolved. unfold update_model_metrics.
  destruct (get_predictions c 1000 None true); [reflexivity|].
  destruct (is_connected c && remote_ok c)%bool; reflexivity.
Qed.

Lemma count_correct_le (l : list Prediction) : count_correct l <= length l.
Proof. unfold count_correct. apply filter_length_le. Qed.

(** X17.  [update_model_metrics] never touches the predictions.  With no
    resolved prediction to read it returns [None]; otherwise the metrics it
    returns carry the stage name it was given, count between 1 and 1000
    predictions (the number read), have [correct <= total] and one accuracy
    for both windows.  On a client that is not connected the call changes
    nothing at all. *)
Theorem update_model_metrics_figures (c : Client) (mtype now : string) :
  (forall limit sport_filter only_resolved,
      get_predictions (fst (update_model_metrics c mtype now)) limit
        sport_filter only_resolved
      = get_predictions c limit sport_filter only_resolved) /\
  (use_local c = true -> fst (update_model_metrics c mtype now) = c) /\
  match snd (update_model_metrics c mtype now) with
  | None => get_predictions c 1000 None true = []
  | Some m =>
      model_type m = mtype /\
      total_predictions m = length (get_predictions c 1000 None true) /\
      1 <= total_predictions m <= 1000 /\
      correct_predictions m <= total_predictions m /\
      accuracy_7d m = accuracy_30d m
  end.
Proof.
  split; [apply update_model_metrics_reads|]. split.
  - intros Hul. unfold update_model_metrics, is_connected. rewrite Hul.
    now destruct (get_predictions c 1000 None true).
  - pose proof (get_predictions_length_1000 c None true) as Hlen.
    unfold update_model_metrics.
    destruct (get_predictions c 1000 None true) as [|p rest] eqn:Hread;
      [reflexivity|].
    assert (Hfig :
      let m := mkModelMetrics None mtype
                 (accuracy_of (count_correct (p :: rest)) (length (p :: rest)))
                 (accuracy_of (count_correct (p :: rest)) (length (p :: rest)))
                 (length (p :: rest)) (count_correct (p :: rest)) (Some now) in
      model_type m = mtype /\
      total_predictions m = length (p :: rest) /\
      1 <= total_predictions m <= 1000 /\
      correct_predictions m <= total_predictions m /\
      accuracy_7d m = accuracy_30d m).
    { cbn [model_type total_predictions correct_predictions accuracy_7d
           accuracy_30d]. repeat split; try (cbn [length] in *; lia).
      apply count_correct_le. }
    destruct (is_connected c && remote_ok c)%bool; exact Hfig.
Qed.

(** What the loop of [update_metrics] returns and what it leaves readable. *)
Lemma update_each_spec (mtypes : list string) (resolved : list Prediction)
  (now : string) :
  forall c acc,
    snd (update_each mtypes resolved now c acc)
    = acc ++ map (fun t => (t, stage_metrics t resolved)) mtypes /\
    forall limit sport_filter only_resolved,
      get_predictions (fst (update_each mtypes resolved now c acc)) limit
        sport_filter only_resolved
      = get_predictions c limit sport_filter only_resolved.
Proof.
  induction mtypes as [|t rest IH]; intros c acc; cbn [update_each map].
  - now rewrite app_nil_r.
  - destruct (IH (fst (update_model_metrics c t now))
                 (acc ++ [(t, stage_metrics t resolved)])) as [Hs Hr].
    split.
    + now rewrite Hs, <- app_assoc.
    + intros limit sport_filter only_resolved.
      now rewrite Hr, update_model_metrics_reads.
Qed.

Lemma update_metrics_spec (c : Client) (now : string) :
  snd (update_metrics c now)
  = match get_predictions c 1000 None true with
    | [] => []
    | resolved => map (fun t => (t, stage_metrics t resolved)) stages
    end /\
  forall limit sport_filter only_resolved,
    get_predictions (fst (update_metrics c now)) limit sport_filter
      only_resolved
    = get_predictions c limit sport_filter only_resolved.
Proof.
  unfold update_metrics.
  destruct (get_predictions c 1000 None true) as [|p rest]; [now split|].
  destruct (update_each_spec stages (p :: rest) now c []) as [Hs Hr].
  split; [exact Hs|exact Hr].
Qed.

(** X18.  [update_metrics] is stable: run again with no new resolution, at
    whatever time, it returns the same dictionary. *)
Theorem update_metrics_is_stable (c : Client) (now now' : string) :
  snd (update_metrics (fst (update_metrics c now)) now')
  = snd (update_metrics c now).
Proof.
  destruct (update_metrics_spec c now) as [Hs Hr].
  destruct (update_metrics_spec (fst (update_metrics c now)) now') as [Hs' _].
  now rewrite Hs', Hr, Hs.
Qed.

Lemma filter_and_length {A} (f g : A -> bool) (l : list A) :
  length (filter (fun x => f x && g x)%bool l) <= length (filter f l).
Proof.
  induction l as [|x l IH]; [reflexivity|]. cbn [filter].
  destruct (f x), (g x); cbn [andb length]; lia.
Qed.

(** X19.  The dictionary [update_metrics] returns is empty when no resolved
    prediction is read; otherwise it has the three stages, in the order
    historical, sentiment, hybrid, and every stage counts the same
    predictions: those read with a non-empty actual outcome, at most 1000,
    with [correct <= total]. *)
Theorem update_metrics_returns_three_stages (c : Client) (now : string) :
  map fst (snd (update_metrics c now))
  = match get_predictions c 1000 None true with
    | [] => []
    | _ => ["historical"; "sentiment"; "hybrid"]
    end /\
  forall t m,
    In (t, m) (snd (update_metrics c now)) ->
    model_type m = t /\
    total_predictions m
    = length (filter (fun p => truthy_str (actual_outcome p))
                     (get_predictions c 1000 None true)) /\
    correct_predictions m <= total_predictions m /\
    total_predictions m <= 1000 /\
    accuracy_30d m = accuracy_of (correct_predictions m) (total_predictions m).
Proof.
  destruct (update_metrics_spec c now) as [Hs _]. rewrite Hs.
  pose proof (get_predictions_length_1000 c None true) as Hlen.
  destruct (get_predictions c 1000 None true) as [|p rest]; [split; [reflexivity|intros t m []]|].
  split; [reflexivity|].
  intros t m Hin. apply in_map_iff in Hin as (t' & Heq & _).
  injection Heq as -> <-. unfold stage_metrics.
  rewrite tally_counts. cbn [Nat.add model_type total_predictions
    correct_predictions accuracy_30d].
  repeat split.
  - apply filter_and_length.
  - pose proof (filter_length_le (fun p0 => truthy_str (actual_outcome p0))
                  (p :: rest)). lia.
Qed.

(** X20.  The dictionary [update_metrics] returns depends on the stored
    confidences and actual outcomes alone: two stores whose resolved
    predictions agree on these give the same dictionary, whatever their
    [predicted_outcome] and [is_correct] fields hold. *)
Theorem update_metrics_ignores_the_label (c1 c2 : Client) (now1 now2 : string) :
  (forall t,
      map (Aux.stage_view t) (get_predictions c1 1000 None true)
      = map (Aux.stage_view t) (get_predictions c2 1000 None true)) ->
  snd (update_metrics c1 now1) = snd (update_metrics c2 now2).
Proof.
  intros Hview.
  destruct (update_metrics_spec c1 now1) as [-> _].
  destruct (update_metrics_spec c2 now2) as [-> _].
  assert (Hm : forall t,
    stage_metrics t (get_predictions c1 1000 None true)
    = stage_metrics t (get_predictions c2 1000 None true)).
  { intros t. apply returned_metrics_are_standalone, Hview. }
  pose proof (Hview "hybrid") as Hlen.
  apply (f_equal (@length _)) in Hlen. rewrite !length_map in Hlen.
  destruct (get_predictions c1 1000 None true) as [|p1 r1],
           (get_predictions c2 1000 None true) as [|p2 r2];
    try discriminate; [reflexivity|].
  apply map_ext. intros t. now rewrite Hm.
Qed.

Lemma update_metrics_ignores_the_label_witness :
  map (fun km => Aux.figures (snd km))
      (snd (update_metrics
              (Ex.connected_client
                 [Ex.stored "7f3a" "0xc1" "Yes" 0.9 0.5 0.2 (Some "Yes")
                            (Some true)]) Ex.now))
  = [("historical", 1, 1, 1.0%float); ("sentiment", 1, 0, 0.0%float);
     ("hybrid", 1, 0, 0.0%float)].
Proof.
  rewrite (update_metrics_ignores_the_label
             (Ex.connected_client
                [Ex.stored "7f3a" "0xc1" "Yes" 0.9 0.5 0.2 (Some "Yes")
                           (Some true)])
             (Ex.connected_client [Ex.resolved_yes]) Ex.now Ex.now).
  - reflexivity.
  - intros t. reflexivity.
Defined.

(** X21.  On a client that is not connected, [update_metrics] persists
    nothing, and the summary read afterwards reports zero accuracy, zero
    predictions and zero correct for the three stages, whatever the store
    holds. *)
Theorem local_summary_is_always_empty (c : Client) (now : string) :
  use_local c = true ->
  fst (update_metrics c now) = c /\
  get_accuracy_summary (fst (update_metrics c now))
  = [("historical", (0.0%float, 0, 0)); ("sentiment", (0.0%float, 0, 0));
     ("hybrid", (0.0%float, 0, 0))].
Proof.
  intros Hul.
  assert (Hsame : fst (update_metrics c now) = c).
  { unfold update_metrics.
    destruct (get_predictions c 1000 None true) as [|p rest]; [reflexivity|].
    assert (Hstep : forall t, fst (update_model_metrics c t now) = c).
    { intros t. unfold update_model_metrics, is_connected. rewrite Hul.
      now destruct (get_predictions c 1000 None true). }
    generalize (@nil (string * ModelMetrics)). generalize stages.
    induction l as [|t ts IH]; intros acc; cbn [update_each]; [reflexivity|].
    rewrite Hstep. apply IH. }
  split; [exact Hsame|]. rewrite Hsame.
  unfold get_accuracy_summary, get_model_metrics, is_connected.
  now rewrite Hul.
Qed.

Lemma local_summary_is_always_empty_witness :
  use_local (Ex.local_client [Ex.resolved_yes]) = true /\
  map fst (snd (update_metrics (Ex.local_client [Ex.resolved_yes]) Ex.now))
  = ["historical"; "sentiment"; "hybrid"] /\
  map (fun kv => snd (snd kv))
      (get_accuracy_summary
         (fst (update_metrics (Ex.local_client [Ex.resolved_yes]) Ex.now)))
  = [0; 0; 0].
Proof.
  split; [reflexivity|]. split; [reflexivity|].
  now rewrite (proj2 (local_summary_is_always_empty
                        (Ex.local_client [Ex.resolved_yes]) Ex.now eq_refl)).
Defined.

(* ================================================================== *)
(** ** Scoring against the markets the client delivers *)
(* ================================================================== *)

Lemma validated_market_outcome (m : Market) :
  validated m = true ->
  get_market_outcome m = Ok None \/
  get_market_outcome m = Raise AttributeError.
Proof.
  intros Hval. unfold get_market_outcome.
  destruct (closed m); cbn [negb]; [|now left].
  unfold validated in Hval.
  destruct (tokens m) as [|[tk|d] rest]; [now left|now right|discriminate].
Qed.

Lemma market_lookup_In (ms : list Market) (k : string) (m : Market) :
  market_lookup ms k = Some m -> In m ms.
Proof.
  unfold market_lookup. intros H. apply find_some in H as [H _].
  now apply in_rev.
Qed.

Lemma score_each_validated (ms : list Market) (now : string) :
  forallb validated ms = true ->
  forall pending c r,
    match score_each ms now pending c r with
    | (c', Ok r') =>
        c' = c /\ scored r' = scored r /\ correct r' = correct r /\
        wrong r' = wrong r /\ total r' = total r /\
        still_pending r' = still_pending r + length pending
    | (c', Raise e) => c' = c /\ e = AttributeError
    end.
Proof.
  intros Hval. induction pending as [|p rest IH]; intros c r;
    cbn [score_each].
  - cbn. repeat split. lia.
  - assert (Hskip :
      match score_each ms now rest c (add_still_pending r) with
      | (c', Ok r') =>
          c' = c /\ scored r' = scored r /\ correct r' = correct r /\
          wrong r' = wrong r /\ total r' = total r /\
          still_pending r' = still_pending r + length (p :: rest)
      | (c', Raise e) => c' = c /\ e = AttributeError
      end).
    { specialize (IH c (add_still_pending r)).
      destruct (score_each ms now rest c (add_still_pending r)) as [c' [r'|e]];
        [|exact IH].
      cbn in IH |- *. destruct IH as (? & ? & ? & ? & ? & ?).
      repeat split; try assumption. lia. }
    destruct (market_lookup ms (market_id p)) as [m|] eqn:Hm; [|exact Hskip].
    apply market_lookup_In in Hm.
    assert (Hvm : validated m = true).
    { rewrite forallb_forall in Hval. now apply Hval. }
    destruct (validated_market_outcome m Hvm) as [-> | ->];
      [exact Hskip|now split].
Qed.

(** X22.  Against markets as the client builds them (tokens are [Token]
    objects), [score_pending_predictions] never scores anything: either it
    returns with every pending prediction counted as still pending and
    [scored = correct = wrong = 0], or it raises [AttributeError]; in both
    cases the store is left as it was. *)
Theorem scorer_never_scores_client_markets (c : Client)
  (sport_filter : option string) (limit : Z) (ms : list Market)
  (now : string) :
  forallb validated ms = true ->
  match score_pending_predictions c sport_filter limit ms now with
  | (c', Ok r) =>
      c' = c /\ scored r = 0 /\ correct r = 0 /\ wrong r = 0 /\
      still_pending r = total r
  | (c', Raise e) => c' = c /\ e = AttributeError
  end.
Proof.
  intros Hval. unfold score_pending_predictions.
  destruct (pending_of c sport_filter limit) as [|p rest]; [now repeat split|].
  pose proof (score_each_validated ms now Hval (p :: rest) c
                (mkResults (length (p :: rest)) 0 0 0 0)) as H.
  destruct (score_each ms now (p :: rest) c
              (mkResults (length (p :: rest)) 0 0 0 0)) as [c' [r|e]];
    [|exact H].
  cbn [scored correct wrong total still_pending] in H.
  destruct H as (? & ? & ? & ? & ? & ?). repeat split; try assumption. lia.
Qed.

Lemma scorer_never_scores_client_markets_witness :
  forallb validated Ex.markets_validated = true /\
  snd (score_pending_predictions (Ex.local_client [Ex.pending_b]) None 100
         Ex.markets_validated Ex.now) = Ok (mkResults 1 0 0 0 1) /\
  match score_pending_predictions (Ex.local_client [Ex.pending_b]) None 100
          Ex.markets_validated Ex.now with
  | (c', Ok r) =>
      c' = Ex.local_client [Ex.pending_b] /\ scored r = 0 /\ correct r = 0 /\
      wrong r = 0 /\ still_pending r = total r
  | (c', Raise e) => c' = Ex.local_client [Ex.pending_b] /\ e = AttributeError
  end.
Proof.
  split; [reflexivity|]. split; [reflexivity|].
  exact (scorer_never_scores_client_markets
           (Ex.local_client [Ex.pending_b]) None 100
           Ex.markets_validated Ex.now eq_refl).
Defined.

(* ================================================================== *)
(** ** Loading and the stages *)
(* ================================================================== *)

Lemma load_all_schema (ml : ModelLoader) (a : Artifacts) :
  Aux.schema_absent_or_read a = true ->
  feature_names (fst (load_all ml a))
  = match feature_names_json a, scaler_params_json a with
    | Ok fn, Ok _ => Some fn
    | _, _ => Some []
    end.
Proof.
  unfold Aux.schema_absent_or_read, load_all, load_schema,
    load_historical, load_sentiment, load_meta.
  intros Hschema.
  destruct (feature_names_json a) as [fn|e1];
    [destruct (scaler_params_json a) as [sp|e2]|]; try rewrite Hschema;
    destruct (historical_joblib a), (sentiment_keras a), (sentiment_joblib a),
      (meta_learner_joblib a); reflexivity.
Qed.

(** X23.  After [load_all] on a new loader whose schema files are read or
    missing, the returned flag is the disjunction of the [historical] and
    [sentiment] entries of [models_loaded], and the [hybrid] entry tells
    whether the meta-learner artifact loaded. *)
Theorem load_all_flag_matches_status (a : Artifacts) :
  Aux.schema_absent_or_read a = true ->
  snd (load_all new_loader a)
  = Ok (fst (fst (models_loaded (fst (load_all new_loader a))))
        || snd (fst (models_loaded (fst (load_all new_loader a)))))%bool /\
  snd (models_loaded (fst (load_all new_loader a)))
  = is_ok (meta_learner_joblib a).
Proof.
  unfold Aux.schema_absent_or_read, load_all, load_schema,
    load_historical, load_sentiment, load_meta, models_loaded.
  intros Hschema.
  destruct (feature_names_json a) as [fn|e1];
    [destruct (scaler_params_json a) as [sp|e2]|]; try rewrite Hschema;
    destruct (historical_joblib a), (sentiment_keras a), (sentiment_joblib a),
      (meta_learner_joblib a); split; reflexivity.
Qed.

Lemma load_all_flag_matches_status_witness :
  Aux.schema_absent_or_read Ex.only_sklearn_sentiment = true /\
  snd (load_all new_loader Ex.only_sklearn_sentiment) = Ok true /\
  models_loaded (fst (load_all new_loader Ex.only_sklearn_sentiment))
  = (false, true, false).
Proof.
  split; [reflexivity|]. split; [|reflexivity].
  exact (proj1 (load_all_flag_matches_status Ex.only_sklearn_sentiment
                  eq_refl)).
Defined.

(** [load_all] prefers the Keras sentiment artifact and records which
    one it took: with a schema read and non-empty, the sentiment stage of a
    freshly loaded predictor calls [predict] on the Keras model when that
    loads, [predict_proba] on the joblib model when only that loads, and is
    the neutral 0.5 when neither does. *)
Theorem sentiment_stage_after_load_all (fos : string -> Result float)
  (a : Artifacts) (n : string) (ns : list string) (sp : ScalerParams)
  (features : Dict) :
  feature_names_json a = Ok (n :: ns) ->
  scaler_params_json a = Ok sp ->
  sentiment_stage fos (fst (load_all new_loader a)) features
  = match sentiment_keras a, sentiment_joblib a with
    | Ok m, _ =>
        or_neutral (X <- to_model_input fos features (n :: ns) ;; predict m X)
    | Raise _, Ok m =>
        or_neutral (X <- to_model_input fos features (n :: ns) ;;
                    predict_proba m X)
    | Raise _, Raise _ => 0.5%float
    end.
Proof.
  intros Hfn Hsp.
  unfold load_all, load_schema, load_historical, load_sentiment, load_meta,
    sentiment_stage.
  rewrite Hfn, Hsp.
  destruct (historical_joblib a), (sentiment_keras a), (sentiment_joblib a),
    (meta_learner_joblib a); reflexivity.
Qed.

Lemma sentiment_stage_after_load_all_witness :
  sentiment_stage Ex.no_parse (fst (load_all new_loader More.both_sentiment))
    (extract_features Ex.lakers) = 0.8%float.
Proof.
  now rewrite (sentiment_stage_after_load_all Ex.no_parse More.both_sentiment
                 "home_yes_price" [] (mkScalerParams [] [])
                 (extract_features Ex.lakers) eq_refl eq_refl).
Defined.

(** X24.  A schema that is missing, or whose scaler file is missing, or that
    is empty, switches both stage models off: after [load_all], every
    prediction carries the neutral 0.5 as historical and as sentiment
    confidence, whatever models loaded. *)
Theorem missing_schema_disables_the_stages (fos : string -> Result float)
  (ml : ModelLoader) (a : Artifacts) (m : Market) (pred : Prediction) :
  Aux.schema_absent_or_read a = true ->
  is_ok (feature_names_json a) && is_ok (scaler_params_json a) = false
  \/ feature_names_json a = Ok [] ->
  predict_market fos (fst (load_all ml a)) m = Ok (Some pred) ->
  historical_confidence pred = 0.5%float /\
  sentiment_confidence pred = 0.5%float.
Proof.
  intros Hschema Hmissing Hpred.
  assert (Hnames : feature_names (fst (load_all ml a)) = Some []).
  { rewrite (load_all_schema ml a Hschema).
    destruct Hmissing as [H| ->]; [|now destruct (scaler_params_json a)].
    destruct (feature_names_json a), (scaler_params_json a);
      try reflexivity; discriminate. }
  apply predict_market_some in Hpred as (-> & -> & _).
  unfold historical_stage, sentiment_stage. rewrite Hnames.
  destruct (historical_model (fst (load_all ml a))),
    (sentiment_model (fst (load_all ml a))); now split.
Qed.

Lemma missing_schema_disables_the_stages_witness :
  Aux.schema_absent_or_read More.scaler_missing = true /\
  models_loaded (fst (load_all new_loader More.scaler_missing))
  = (true, true, false) /\
  exists pred,
    predict_market Ex.no_parse (fst (load_all new_loader More.scaler_missing))
      Ex.lakers = Ok (Some pred) /\
    historical_confidence pred = 0.5%float /\
    sentiment_confidence pred = 0.5%float.
Proof.
  split; [reflexivity|]. split; [reflexivity|].
  eexists. split; [reflexivity|].
  refine (missing_schema_disables_the_stages Ex.no_parse new_loader
            More.scaler_missing Ex.lakers _ eq_refl _ eq_refl).
  left. reflexivity.
Defined.

(** X25.  [predict_market] never raises, and it returns no prediction
    exactly for the markets whose detected sport is "other". *)
Theorem predict_market_skips_other_sports (fos : string -> Result float)
  (ml : ModelLoader) (m : Market) :
  is_ok (predict_market fos ml m) = true /\
  (predict_market fos ml m = Ok None <-> _detect_sport (question m) = "other").
Proof.
  destruct (predict_market_total fos ml m) as (r & Hr & Hiff).
  rewrite Hr. split; [reflexivity|].
  split.
  - intros H. injection H as ->. now apply Hiff.
  - intros H. f_equal. now apply Hiff.
Qed.

(** X26.  A historical model whose inference call fails costs nothing but
    its own stage: the prediction is still emitted, with the neutral 0.5 as
    historical confidence. *)
Theorem failing_model_is_neutral (fos : string -> Result float)
  (ml : ModelLoader) (hm : Model) (m : Market) :
  historical_model ml = Some hm ->
  (forall X, is_ok (predict_proba hm X) = false) ->
  _detect_sport (question m) <> "other" ->
  exists pred,
    predict_market fos ml m = Ok (Some pred) /\
    historical_confidence pred = 0.5%float.
Proof.
  intros Hhm Hfail Hsport.
  destruct (predict_market_total fos ml m) as (r & Hr & Hiff).
  destruct r as [pred|]; [|now destruct Hsport; apply Hiff].
  exists pred. split; [exact Hr|].
  apply predict_market_some in Hr as (-> & _).
  unfold historical_stage. rewrite Hhm.
  destruct (feature_names ml) as [[|n ns]|]; try reflexivity.
  destruct (to_model_input fos (extract_features m) (n :: ns)) as [X|e];
    [|reflexivity].
  cbn [Py.bind]. specialize (Hfail X).
  now destruct (predict_proba hm X).
Qed.

Lemma failing_model_is_neutral_witness :
  exists pred,
    predict_market Ex.no_parse More.historical_fails Ex.lakers
    = Ok (Some pred) /\
    historical_confidence pred = 0.5%float.
Proof.
  apply (failing_model_is_neutral Ex.no_parse More.historical_fails
           Ex.failing_model Ex.lakers eq_refl).
  - intros X. reflexivity.
  - discriminate.
Defined.

(* ================================================================== *)
(** ** Features and the orchestrator *)
(* ================================================================== *)

Lemma find_keyword_none {A} (f : A -> bool) (table : list (string * list A)) :
  find (fun entry => existsb f (snd entry)) table = None <->
  existsb f (flat_map snd table) = false.
Proof.
  induction table as [|entry rest IH]; cbn [find flat_map]; [now split|].
  rewrite existsb_app.
  destruct (existsb f (snd entry)); cbn [orb]; [split; discriminate|exact IH].
Qed.

(** [_detect_sport] answers "other" or one of the six sports of the table. *)
Lemma detect_sport_known (text : string) :
  In (_detect_sport text) ("other" :: More.known_sports).
Proof.
  unfold _detect_sport, More.known_sports.
  destruct (find (fun entry => existsb (fun kw => contains kw (lower text))
                                 (snd entry)) SPORT_KEYWORDS)
    as [entry|] eqn:Hfind; [|now left].
  apply find_some in Hfind as [Hin _]. right. now apply in_map.
Qed.

(** X27.  [_detect_sport] answers "other" exactly when the lower-cased text
    contains none of the keywords of [SPORT_KEYWORDS]; otherwise it answers
    one of the six sports of the table. *)
Theorem detect_sport_other_iff (text : string) :
  (_detect_sport text = "other" <->
   existsb (fun kw => contains kw (lower text)) More.all_keywords = false) /\
  In (_detect_sport text) ("other" :: More.known_sports).
Proof.
  split; [|apply detect_sport_known].
  unfold _detect_sport, More.all_keywords.
  pose proof (find_keyword_none (fun kw => contains kw (lower text))
                SPORT_KEYWORDS) as Hnone.
  destruct (find (fun entry => existsb (fun kw => contains kw (lower text))
                                 (snd entry)) SPORT_KEYWORDS)
    as [entry|] eqn:Hfind.
  - apply find_some in Hfind as [Hin _].
    assert (Hsport : In (fst entry) (map fst SPORT_KEYWORDS))
      by now apply in_map.
    split.
    + intros Hother. rewrite Hother in Hsport. cbn in Hsport.
      repeat (destruct Hsport as [Hsport|Hsport]; [discriminate|]).
      contradiction.
    + intros H. apply Hnone in H. discriminate.
  - split; [intros _; now apply Hnone|reflexivity].
Qed.





(** X29.  The six sport columns of a schema come out one-hot: the column of
    the detected sport is 1.0 and the five others are 0.0 (all six are 0.0
    for the sport "other"). *)
Theorem sport_columns_are_one_hot (fos : string -> Result float)
  (m : Market) :
  to_model_input fos (extract_features m) More.sport_columns
  = Ok (map (fun s => if String.eqb (_detect_sport (question m)) s
                      then 1.0%float else 0.0%float)
            More.known_sports) /\
  length (filter (fun s => String.eqb (_detect_sport (question m)) s)
                 More.known_sports)
  = if String.eqb (_detect_sport (question m)) "other" then 0 else 1.
Proof.
  split; [reflexivity|].
  pose proof (detect_sport_known (question m)) as Hin.
  cbn in Hin.
  repeat (destruct Hin as [<-|Hin]; [reflexivity|]). contradiction.
Qed.

Lemma predict_market_fields (fos : string -> Result float) (ml : ModelLoader)
  (m : Market) (pred : Prediction) :
  predict_market fos ml m = Ok (Some pred) ->
  id pred = None /\
  market_id pred = condition_id m /\
  sport pred = _detect_sport (question m) /\
  sport pred <> "other" /\
  event_name pred = take 200 (question m) /\
  actual_outcome pred = None /\
  is_correct pred = None.
Proof.
  unfold predict_market. rewrite sport_item. cbn [Py.bind is_str as_str].
  destruct (String.eqb_spec (_detect_sport (question m)) "other") as [E|E];
    [discriminate|].
  rewrite hybrid_stage_cases. cbn [Py.bind]. intros H.
  injection H as <-. cbn. repeat split. exact E.
Qed.

Lemma predict_each_In (step : Market -> Result (option Prediction))
  (ms : list Market) (pred : Prediction) :
  In pred (predict_each step ms) ->
  exists m, In m ms /\ step m = Ok (Some pred).
Proof.
  rewrite predict_each_contributions. intros H.
  apply in_flat_map in H as (m & Hm & Hc). exists m. split; [exact Hm|].
  unfold Aux.contribution in Hc.
  destruct (step m) as [[q|]|e]; try contradiction.
  now destruct Hc as [<-|[]].
Qed.

Lemma predict_each_length (step : Market -> Result (option Prediction))
  (ms : list Market) :
  length (predict_each step ms) <= length ms.
Proof.
  induction ms as [|m rest IH]; [reflexivity|]. cbn [predict_each].
  destruct (step m) as [[q|]|e]; cbn [length]; lia.
Qed.

Lemma take_length (n : nat) (s : string) : String.length (take n s) <= n.
Proof.
  unfold take. revert s. induction n as [|n IH]; intros s.
  - destruct s; cbn; lia.
  - destruct s as [|ch s]; cbn; [lia|]. specialize (IH s). lia.
Qed.

Lemma slice_to_In {A} (n : Z) (l : list A) (x : A) :
  In x (slice_to n l) -> In x l.
Proof.
  unfold slice_to. destruct (n <? 0)%Z; apply In_firstn.
Qed.

(** X30.  [predict_current_markets] with a cap [max_markets >= 0] returns at
    most [max_markets] predictions.  Each is for a market of the fetched list
    that accepts orders and whose detected sport is not "other" (the
    lower-cased filter sport when a filter is given); it carries that
    market's id, the question cut to 200 characters, no id of its own and no
    outcome yet. *)
Theorem predict_current_markets_output (fos : string -> Result float)
  (ml : ModelLoader) (sport_filter : option string) (max_markets : Z)
  (ms : list Market) :
  (0 <= max_markets)%Z ->
  length (predict_current_markets fos ml sport_filter max_markets ms)
  <= Z.to_nat max_markets /\
  forall pred,
    In pred (predict_current_markets fos ml sport_filter max_markets ms) ->
    exists m,
      In m ms /\ accepting_orders m = true /\
      market_id pred = condition_id m /\
      sport pred = _detect_sport (question m) /\
      sport pred <> "other" /\
      (forall s, sport_filter = Some s -> s <> "" -> sport pred = lower s) /\
      event_name pred = take 200 (question m) /\
      String.length (event_name pred) <= 200 /\
      id pred = None /\ actual_outcome pred = None.
Proof.
  intros Hcap. unfold predict_current_markets. split.
  - etransitivity; [apply predict_each_length|].
    unfold slice_to. replace (max_markets <? 0)%Z with false
      by (symmetry; apply Z.ltb_ge; lia).
    rewrite length_firstn. lia.
  - intros pred Hin. apply predict_each_In in Hin as (m & Hm & Hpred).
    apply slice_to_In in Hm.
    apply predict_market_fields in Hpred
      as (Hid & Hmid & Hsport & Hother & Hname & Hact & _).
    exists m.
    assert (Hactive : In m (filter accepting_orders ms) /\
                      (forall s, sport_filter = Some s -> s <> "" ->
                                 _detect_sport (question m) = lower s)).
    { destruct sport_filter as [s|]; [|split; [exact Hm|discriminate]].
      destruct (truthy_str (Some s)) eqn:Ht.
      - apply filter_In in Hm as [Hm Hs]. split; [exact Hm|].
        intros s' [= <-] _. now apply String.eqb_eq in Hs.
      - split; [exact Hm|]. intros s' [= <-] Hs'. cbn in Ht.
        now destruct (String.eqb_spec s ""). }
    destruct Hactive as [Hacc Hfilter].
    apply filter_In in Hacc as [Hms Hacc].
    repeat split; try assumption.
    + intros s Hs Hne. rewrite Hsport. now apply Hfilter.
    + rewrite Hname. apply take_length.
Qed.

Lemma predict_current_markets_output_witness :
  (0 <= 1)%Z /\
  map market_id
      (predict_current_markets Ex.no_parse new_loader (Some "NBA") 1
         [Ex.closed_validated; Ex.lakers; Ex.even_odds]) = ["0xa1"] /\
  length (predict_current_markets Ex.no_parse new_loader (Some "NBA") 1
            [Ex.closed_validated; Ex.lakers; Ex.even_odds]) <= 1.
Proof.
  split; [discriminate|]. split; [reflexivity|].
  apply (predict_current_markets_output Ex.no_parse new_loader (Some "NBA") 1
           [Ex.closed_validated; Ex.lakers; Ex.even_odds]).
  discriminate.
Defined.
